(** * The CrowdSec bouncer middleware (bouncer.go): decision synchronisation
      and remediation

    A shallow embedding of [src/bouncer.go].  The Go code is stateful: it
    reads and writes a decision cache, two process-wide booleans and one
    field of the bouncer, and it talks to the decision source over HTTP.
    Here every function takes the state of the world and returns the new
    one; the effects a caller can observe ([next.ServeHTTP],
    [rw.WriteHeader], the challenge page, every [httpClient.Do]) are
    appended to a trace. *)

From Stdlib Require Import ZArith String Ascii List Bool Lia.
From Stdlib Require Floats Uint63.
From stdpp Require Import gmap strings list pretty.

Open Scope string_scope.
Open Scope Z_scope.

(** Go's [error]: [None] is [nil], [Some msg] an error whose [Error()] is
    [msg]. *)
Definition error : Type := option string.

(** ** Integers *)

(** Two's-complement wrap-around of [int64] arithmetic. *)
Definition wrap64 (z : Z) : Z := (z + 2 ^ 63) mod 2 ^ 64 - 2 ^ 63.

(** ** [float64] *)

(** Go's [float64] is IEEE 754 binary64 with rounding to nearest even, as
    are Rocq's primitive floats. *)
Module float64.

Definition float64 : Set := PrimFloat.float.

(** [float64(x)] for a [uint64] [x] of at most [2 ^ 63], the largest the
    parser below converts; [2 ^ 63] itself is a power of two. *)
Definition ofUint64 (x : Z) : float64 :=
  if x <? 2 ^ 63 then PrimFloat.of_uint63 (Uint63.of_Z x)
  else PrimFloat.mul (PrimFloat.of_uint63 (Uint63.of_Z (x / 2)))
         (PrimFloat.of_uint63 (Uint63.of_Z 2)).

(** [float64(x)] for an [int64] [x]. *)
Definition ofInt64 (x : Z) : float64 :=
  if x <? 0 then PrimFloat.opp (ofUint64 (- x)) else ofUint64 x.

(** [int64(x)] and [uint64(x)] for a finite [x] in range: the fraction is
    dropped. *)
Definition toInt (x : float64) : Z :=
  match FloatOps.Prim2SF x with
  | SpecFloat.S754_finite false m e => Z.shiftl (Z.pos m) e
  | SpecFloat.S754_finite true m e => - Z.shiftl (Z.pos m) e
  | _ => 0
  end.

End float64.

(** ** Package [time]: durations *)

Module time.

Definition Nanosecond : Z := 1.
Definition Microsecond : Z := 1000 * Nanosecond.
Definition Millisecond : Z := 1000 * Microsecond.
Definition Second : Z := 1000 * Millisecond.
Definition Minute : Z := 60 * Second.
Definition Hour : Z := 60 * Minute.

Definition isDigit (c : ascii) : bool :=
  (48 <=? Z.of_N (N_of_ascii c)) && (Z.of_N (N_of_ascii c) <=? 57).

Definition digitVal (c : ascii) : Z := Z.of_N (N_of_ascii c) - 48.

(** [leadingInt]: the leading [[0-9]*] of [s] as a number and the rest of
    [s]; [None] when the number overflows. *)
Fixpoint leadingInt (x : Z) (s : string) : option (Z * string) :=
  match s with
  | String c s' =>
      if isDigit c then
        if 2 ^ 63 / 10 <? x then None
        else
          let x' := x * 10 + digitVal c in
          if 2 ^ 63 <? x' then None else leadingInt x' s'
      else Some (x, s)
  | EmptyString => Some (x, s)
  end.

(** [leadingFraction]: the leading [[0-9]*] of [s] as the numerator [x] of
    a fraction [x / scale], with [scale] a [float64]; digits beyond the
    precision of the accumulator are read and dropped. *)
Fixpoint leadingFraction (x : Z) (scale : float64.float64) (overflow : bool)
    (s : string) : Z * float64.float64 * string :=
  match s with
  | String c s' =>
      if isDigit c then
        if overflow then leadingFraction x scale true s'
        else if (2 ^ 63 - 1) / 10 <? x then leadingFraction x scale true s'
        else
          let y := x * 10 + digitVal c in
          if 2 ^ 63 <? y then leadingFraction x scale true s'
          else
            leadingFraction y (PrimFloat.mul scale (float64.ofUint64 10))
              false s'
      else (x, scale, s)
  | EmptyString => (x, scale, s)
  end.

(** The unit of a duration component: the characters up to the next digit
    or period. *)
Fixpoint splitUnit (s : string) : string * string :=
  match s with
  | String c s' =>
      if isDigit c || Ascii.eqb c "."%char then (EmptyString, s)
      else let '(u, r) := splitUnit s' in (String c u, r)
  | EmptyString => (EmptyString, EmptyString)
  end.

(** U+00B5 (micro sign) and U+03BC (Greek mu) in UTF-8, followed by s. *)
Definition microSign : string :=
  String (ascii_of_nat 194) (String (ascii_of_nat 181) "s").
Definition greekMu : string :=
  String (ascii_of_nat 206) (String (ascii_of_nat 188) "s").

Definition unitMap (u : string) : option Z :=
  if String.eqb u "ns" then Some Nanosecond
  else if String.eqb u "us" then Some Microsecond
  else if String.eqb u microSign then Some Microsecond
  else if String.eqb u greekMu then Some Microsecond
  else if String.eqb u "ms" then Some Millisecond
  else if String.eqb u "s" then Some Second
  else if String.eqb u "m" then Some Minute
  else if String.eqb u "h" then Some Hour
  else None.

(** The loop of [ParseDuration] over the components (digits, an optional
    period and digits, a unit); [d] is the magnitude accumulated so far.
    Every round consumes at least the unit, so [String.length s] rounds
    are enough.  The fractional part is
    [uint64(float64(f) * (float64(unit) / scale))], and the sum [d += v]
    is a [uint64] sum. *)
Fixpoint components (rounds : nat) (s : string) (d : Z) : option Z :=
  match s with
  | EmptyString => Some d
  | String c0 _ =>
      match rounds with
      | O => None
      | S rounds' =>
          if negb (Ascii.eqb c0 "."%char || isDigit c0) then None
          else
            match leadingInt 0 s with
            | None => None
            | Some (v, s1) =>
                let pre := negb (String.length s =? String.length s1)%nat in
                let '(f, scale, post, s2) :=
                  match s1 with
                  | String "."%char s1' =>
                      let '(f, scale, s2) :=
                        leadingFraction 0 (float64.ofUint64 1) false s1' in
                      (f, scale,
                       negb (String.length s1' =? String.length s2)%nat, s2)
                  | _ => (0, float64.ofUint64 1, false, s1)
                  end in
                if negb pre && negb post then None
                else
                  let '(u, s3) := splitUnit s2 in
                  if String.eqb u "" then None
                  else
                    match unitMap u with
                    | None => None
                    | Some unit =>
                        if 2 ^ 63 / unit <? v then None
                        else
                          let v1 := v * unit in
                          let v2 :=
                            if 0 <? f then
                              (v1 + float64.toInt
                                      (PrimFloat.mul (float64.ofUint64 f)
                                         (PrimFloat.div
                                            (float64.ofUint64 unit) scale)))
                              mod 2 ^ 64
                            else v1 in
                          if (0 <? f) && (2 ^ 63 <? v2) then None
                          else
                            let d' := (d + v2) mod 2 ^ 64 in
                            if 2 ^ 63 <? d' then None
                            else components rounds' s3 d'
                    end
            end
      end
  end.

(** [time.ParseDuration]: the duration in nanoseconds, or [None] for the
    strings Go rejects. *)
Definition ParseDuration (s : string) : option Z :=
  let '(neg, s') :=
    match s with
    | String "-"%char r => (true, r)
    | String "+"%char r => (false, r)
    | _ => (false, s)
    end in
  if String.eqb s' "0" then Some 0
  else if String.eqb s' "" then None
  else
    match components (String.length s') s' 0 with
    | None => None
    | Some d =>
        if neg then Some (- d)
        else if 2 ^ 63 - 1 <? d then None else Some d
    end.

(** [Duration.Seconds]: the duration in seconds as a [float64],
    [float64(sec) + float64(nsec) / 1e9] for [sec := d / Second] and
    [nsec := d % Second]. *)
Definition SecondsFloat (d : Z) : float64.float64 :=
  let sec := Z.quot d Second in
  let nsec := Z.rem d Second in
  PrimFloat.add (float64.ofInt64 sec)
    (PrimFloat.div (float64.ofInt64 nsec) (float64.ofInt64 1000000000)).

(** [int64(d.Seconds())], as the bouncer uses it: the whole seconds of
    the [float64]. *)
Definition Seconds (d : Z) : Z := float64.toInt (SecondsFloat d).

End time.

(** ** Package [configuration]: the synchronisation modes *)

Module configuration.

(** Modelled from the spec: package [configuration] is not among the
    sources.  The spec names four modes, Disabled, LiveLookup, Streaming
    and CentralPoll (stream or alone); the bouncer keeps the mode as a
    string and only compares it with four constants.  This one is
    Disabled. *)
Definition NoneMode : string := "none".

(** Modelled from the spec: the mode LiveLookup of the missing package
    [configuration]. *)
Definition LiveMode : string := "live".

(** Modelled from the spec: the mode Streaming of the missing package
    [configuration]. *)
Definition StreamMode : string := "stream".

(** Modelled from the spec: the mode CentralPoll of the missing package
    [configuration]. *)
Definition AloneMode : string := "alone".

End configuration.

(** ** Package [cache]: the decision cache *)

Module cache.

(** Modelled from the spec: package [cache] is not among the sources.  The
    spec names three cached verdicts, none, banned and captcha; this is
    banned. *)
Definition BannedValue : string := "banned".

(** Modelled from the spec: the cached verdict none of the missing package
    [cache], confirmed not banned until expiry. *)
Definition NoBannedValue : string := "none".

(** Modelled from the spec: the cached verdict captcha of the missing
    package [cache]. *)
Definition CaptchaValue : string := "captcha".

(** Modelled from the spec: the message of the distinguished CacheMiss error
    of the missing package [cache]; callers compare error strings with
    it. *)
Definition CacheMiss : string := "cache:miss".

(** A cache entry: the value and the second at which it expires. *)
Record Entry := { value : string; expiry : Z }.

(** Modelled from the spec: get(key) -> value | CacheMiss of the missing
    storage client, where an expired entry behaves like an absent one.  The
    store is a finite map from keys to entries, read at the second [now]. *)
Definition Get (store : gmap string Entry) (now : Z) (key : string)
  : string * error :=
  match store !! key with
  | Some e => if now <? expiry e then (value e, None)
              else (EmptyString, Some CacheMiss)
  | None => (EmptyString, Some CacheMiss)
  end.

(** Modelled from the spec: set(key, value, ttlSeconds) of the missing
    storage client; the entry replaces any other under [key] and expires
    [ttl] seconds after [now]. *)
Definition Set_ (store : gmap string Entry) (now : Z)
    (key val : string) (ttl : Z) : gmap string Entry :=
  <[key := {| value := val; expiry := now + ttl |}]> store.

(** Modelled from the spec: delete(key) of the missing storage client. *)
Definition Delete (store : gmap string Entry) (key : string)
  : gmap string Entry :=
  delete key store.

End cache.

(** ** The inbound request and the collaborators of the request path *)

(** What the bouncer reads of an [*http.Request]. *)
Record Request := {
  RemoteAddr : string;
  Header : list (string * string);
  URLPath : string
}.

Module ip.

(** [ip.Checker]: package [ip] is not among the sources, so a checker is
    the function its [Contains] method computes. *)
Record Checker := { Contains : string -> bool * error }.

Record PoolStrategy := { Checker_ : Checker }.

End ip.

Module captcha.

(** [captcha.Client]: the two fields the dispatcher reads and the result
    of its [CheckCookie] method on a request (package [captcha] is not
    among the sources). *)
Record Client := {
  Valid : bool;
  FallbackRemediation : string;
  CheckCookie : Request -> bool
}.

End captcha.

(** ** Bodies returned by the decision source *)

(** Decision body returned from Crowdsec LAPI. *)
Record Decision := {
  ID : Z;
  Origin : string;
  Type_ : string;
  Scope : string;
  Value : string;
  Duration : string;
  Scenario : string;
  Simulated : bool
}.

(** Stream body returned from Crowdsec Stream LAPI. *)
Record Stream := { Deleted : list Decision; New : list Decision }.

(** Login body returned from Crowdsec Login CAPI. *)
Record Login := { Code : Z; Token : string; Expire : string }.

(** A response body, by the JSON document it holds: the literal null, an
    array of decisions, a stream object, a login object, or bytes that are
    no such document. *)
Inductive Body :=
| BodyNull
| BodyDecisions (ds : list Decision)
| BodyStream (s : Stream)
| BodyLogin (l : Login)
| BodyInvalid.

(** [json.Unmarshal(body, &decisions)]: null leaves the slice nil, an array
    fills it, an object is an error. *)
Definition unmarshalDecisions (body : Body) : option (list Decision) :=
  match body with
  | BodyNull => Some []
  | BodyDecisions ds => Some ds
  | _ => None
  end.

(** [json.Unmarshal(body, &stream)]: an object fills the fields it names and
    leaves the others zero, an array is an error. *)
Definition unmarshalStream (body : Body) : option Stream :=
  match body with
  | BodyStream s => Some s
  | BodyNull | BodyLogin _ => Some {| Deleted := []; New := [] |}
  | _ => None
  end.

(** [json.Unmarshal(body, &login)]. *)
Definition unmarshalLogin (body : Body) : option Login :=
  match body with
  | BodyLogin l => Some l
  | BodyNull | BodyStream _ =>
      Some {| Code := 0; Token := EmptyString; Expire := EmptyString |}
  | _ => None
  end.

Definition isNull (body : Body) : bool :=
  match body with BodyNull => true | _ => false end.

(** ** The HTTP client *)

Inductive Method := MethodGet | MethodPost.

(** A request of the bouncer to the decision source: the method, the URL,
    the one header it adds and the body of a POST. *)
Record HTTPRequest := {
  method : Method;
  url : string;
  headerName : string;
  headerValue : string;
  data : string
}.

(** What [httpClient.Do] gives back: a transport error, or a response with
    its status code and either its body or the error of reading it. *)
Inductive Response :=
| DoError (msg : string)
| Reply (StatusCode : Z) (body : Body + string).

Definition StatusOK : Z := 200.
Definition StatusUnauthorized : Z := 401.
Definition StatusForbidden : Z := 403.

(** ** Effects *)

Inductive Event :=
| EvNext                           (* bouncer.next.ServeHTTP(rw, req) *)
| EvWriteHeader (status : Z)       (* rw.WriteHeader(status) *)
| EvChallenge (remoteIP : string)  (* bouncer.captchaClient.ServeHTTP *)
| EvRemediation (remoteIP : string)(* handleRemediation is entered *)
| EvDo (req : HTTPRequest).        (* bouncer.httpClient.Do(req) *)

(** ** The bouncer and the state it runs in *)

(** The fields of [Bouncer] the request path and the sync engine read.
    [crowdsecKey], the one field written after construction, is part of
    [World]. *)
Record Bouncer := {
  enabled : bool;
  crowdsecScheme : string;
  crowdsecHost : string;
  crowdsecMode : string;
  crowdsecMachineID : string;
  crowdsecPassword : string;
  crowdsecScenarios : list string;
  updateInterval : Z;
  defaultDecisionTimeout : Z;
  customHeader : string;
  crowdsecStreamRoute : string;
  crowdsecHeader : string;
  clientPoolStrategy : ip.PoolStrategy;
  serverPoolStrategy : ip.PoolStrategy;
  captchaClient : captcha.Client
}.

(** The mutable state: the bouncer's key, the two package-level booleans, the
    cache and its clock (in seconds), the responses the decision source will
    give to the next calls of [httpClient.Do], in order, and the trace of
    effects so far. *)
Record World := {
  crowdsecKey : string;
  isStartup : bool;
  isCrowdsecStreamHealthy : bool;
  cacheStore : gmap string cache.Entry;
  clock : Z;
  pending : list Response;
  trace : list Event
}.

Definition emit (ev : Event) (w : World) : World :=
  {| crowdsecKey := crowdsecKey w; isStartup := isStartup w;
     isCrowdsecStreamHealthy := isCrowdsecStreamHealthy w;
     cacheStore := cacheStore w; clock := clock w; pending := pending w;
     trace := trace w ++ [ev] |}.

Definition setKey (k : string) (w : World) : World :=
  {| crowdsecKey := k; isStartup := isStartup w;
     isCrowdsecStreamHealthy := isCrowdsecStreamHealthy w;
     cacheStore := cacheStore w; clock := clock w; pending := pending w;
     trace := trace w |}.

Definition setHealthy (h : bool) (w : World) : World :=
  {| crowdsecKey := crowdsecKey w; isStartup := isStartup w;
     isCrowdsecStreamHealthy := h;
     cacheStore := cacheStore w; clock := clock w; pending := pending w;
     trace := trace w |}.

Definition setCache (c : gmap string cache.Entry) (w : World) : World :=
  {| crowdsecKey := crowdsecKey w; isStartup := isStartup w;
     isCrowdsecStreamHealthy := isCrowdsecStreamHealthy w;
     cacheStore := c; clock := clock w; pending := pending w;
     trace := trace w |}.

Definition setPending (p : list Response) (w : World) : World :=
  {| crowdsecKey := crowdsecKey w; isStartup := isStartup w;
     isCrowdsecStreamHealthy := isCrowdsecStreamHealthy w;
     cacheStore := cacheStore w; clock := clock w; pending := p;
     trace := trace w |}.

(** The same world at a later (or any other) second. *)
Definition atTime (t : Z) (w : World) : World :=
  {| crowdsecKey := crowdsecKey w; isStartup := isStartup w;
     isCrowdsecStreamHealthy := isCrowdsecStreamHealthy w;
     cacheStore := cacheStore w; clock := t; pending := pending w;
     trace := trace w |}.

(** [bouncer.cacheClient.Get], [Set] and [Delete] on the world's cache. *)
Definition cacheGet (key : string) (w : World) : string * error :=
  cache.Get (cacheStore w) (clock w) key.

Definition cacheSet (key val : string) (ttl : Z) (w : World) : World :=
  setCache (cache.Set_ (cacheStore w) (clock w) key val ttl) w.

Definition cacheDelete (key : string) (w : World) : World :=
  setCache (cache.Delete (cacheStore w) key) w.

(** [bouncer.httpClient.Do(req)]: the call is recorded and answered by the
    next pending response; when the decision source has none left the call
    fails like an unreachable host. *)
Definition Do (req : HTTPRequest) (w : World) : Response * World :=
  let w' := emit (EvDo req) w in
  match pending w with
  | r :: rest => (r, setPending rest w')
  | [] => (DoError "connection refused", w')
  end.

(** ** Constants and formatting *)

Definition crowdsecLapiHeader : string := "X-Api-Key".
Definition crowdsecCapiHeader : string := "Authorization".
Definition crowdsecLapiRoute : string := "v1/decisions".
Definition crowdsecLapiStreamRoute : string := "v1/decisions/stream".
Definition crowdsecCapiLogin : string := "v2/watchers/login".
Definition crowdsecCapiStreamRoute : string := "v2/decisions/stream".
Definition cacheTimeoutKey : string := "updated".

(** [url.URL{Scheme, Host, Path, RawQuery}.String()] for the URLs the bouncer
    builds: a scheme, a host and a relative path, nothing to escape. *)
Definition urlString (scheme host path rawQuery : string) : string :=
  scheme +:+ "://" +:+ host +:+ "/" +:+ path +:+
  (if String.eqb rawQuery EmptyString then EmptyString else "?" +:+ rawQuery).

(** The verb [%t] of [fmt.Sprintf]. *)
Definition fmtBool (x : bool) : string := if x then "true" else "false".

Definition dquote : string := String (ascii_of_nat 34) EmptyString.

(** The body of the login request. *)
Definition loginData (b : Bouncer) : string :=
  "{" +:+ dquote +:+ "machine_id" +:+ dquote +:+ ": " +:+ dquote +:+
  crowdsecMachineID b +:+ dquote +:+ "," +:+ dquote +:+ "password" +:+
  dquote +:+ ": " +:+ dquote +:+ crowdsecPassword b +:+ dquote +:+ "," +:+
  dquote +:+ "scenarios" +:+ dquote +:+ ": [" +:+ dquote +:+
  String.concat (dquote +:+ "," +:+ dquote) (crowdsecScenarios b) +:+
  dquote +:+ "]}".

Definition loginURL (b : Bouncer) : string :=
  urlString (crowdsecScheme b) (crowdsecHost b) crowdsecCapiLogin EmptyString.

(** The message of the error [json.Unmarshal] returns; the bouncer only
    wraps it. *)
Definition jsonError : string := "json: cannot unmarshal".

(** The message of the error [time.ParseDuration] returns. *)
Definition durationError (s : string) : string :=
  "time: invalid duration " +:+ s.

(** ** The sync engine: queries to the decision source *)

(** The request [crowdsecQuery] builds: a POST of the credentials or a GET,
    with the bouncer's key in the bouncer's header. *)
Definition newRequest (b : Bouncer) (stringURL : string) (isPost : bool)
    (w : World) : HTTPRequest :=
  if isPost then
    {| method := MethodPost; url := stringURL;
       headerName := crowdsecHeader b; headerValue := crowdsecKey w;
       data := loginData b |}
  else
    {| method := MethodGet; url := stringURL;
       headerName := crowdsecHeader b; headerValue := crowdsecKey w;
       data := EmptyString |}.

(** [crowdsecQuery] and [getToken] call each other, and [crowdsecQuery]
    calls itself after a renewed login, with no bound of their own: [fuel]
    bounds the depth of the calls, and [None] means it ran out.

    The embedding starts where the request exists.  The Go code drops the
    error of [http.NewRequest] and sets headers on the request it returned:
    with a URL that [http.NewRequest] rejects the request is nil and the
    call panics before the client is reached.  That path is not part of
    this function, which describes the queries whose request was built. *)
Fixpoint crowdsecQuery (fuel : nat) (b : Bouncer) (stringURL : string)
    (isPost : bool) (w : World) : option ((Body + string) * World) :=
  match fuel with
  | O => None
  | S fuel' =>
      let '(res, w1) := Do (newRequest b stringURL isPost w) w in
      match res with
      | DoError err =>
          Some (inr ("crowdsecQuery url:" +:+ stringURL +:+ " " +:+ err), w1)
      | Reply StatusCode body =>
          if (StatusCode =? StatusUnauthorized)
             && String.eqb (crowdsecMode b) configuration.AloneMode then
            match getToken fuel' b w1 with
            | None => None
            | Some (Some errToken, w2) =>
                Some (inr ("crowdsecQuery:renewToken url:" +:+ stringURL +:+
                           " " +:+ errToken), w2)
            | Some (None, w2) => crowdsecQuery fuel' b stringURL false w2
            end
          else if negb (StatusCode =? StatusOK) then
            Some (inr ("crowdsecQuery url:" +:+ stringURL +:+
                       ", statusCode:" +:+ pretty StatusCode), w1)
          else
            match body with
            | inl bytes => Some (inl bytes, w1)
            | inr err => Some (inr ("crowdsecQuery:readBody " +:+ err), w1)
            end
      end
  end
with getToken (fuel : nat) (b : Bouncer) (w : World)
    : option (error * World) :=
  match fuel with
  | O => None
  | S fuel' =>
      match crowdsecQuery fuel' b (loginURL b) true w with
      | None => None
      | Some (inr err, w1) => Some (Some err, w1)
      | Some (inl body, w1) =>
          match unmarshalLogin body with
          | None =>
              Some (Some ("getToken:parsingBody " +:+ jsonError),
                    setHealthy false w1)
          | Some login =>
              if (Code login =? 200)
                 && (0 <? Z.of_nat (String.length (Token login))) then
                Some (None, setKey (Token login) w1)
              else
                Some (Some ("getToken statusCode:" +:+ pretty (Code login)), w1)
          end
      end
  end.

(** ** The remediation dispatcher *)

Definition handleRemediation (remoteIP remediation : string) (b : Bouncer)
    (req : Request) (w : World) : World :=
  let w := emit (EvRemediation remoteIP) w in
  let remediation :=
    if String.eqb remediation cache.CaptchaValue
       && negb (captcha.Valid (captchaClient b))
       && String.eqb (captcha.FallbackRemediation (captchaClient b)) "ban"
    then cache.BannedValue else remediation in
  if String.eqb remediation cache.BannedValue then
    emit (EvWriteHeader StatusForbidden) w
  else if String.eqb remediation cache.CaptchaValue
          && (negb (captcha.CheckCookie (captchaClient b) req)
              && negb (String.eqb (URLPath req) "/favicon.ico")) then
    emit (EvChallenge remoteIP) w
  else
    emit EvNext w.

(** ** LiveLookup: the on-demand query *)

(** The zero value of [Decision]. *)
Definition zeroDecision : Decision :=
  {| ID := 0; Origin := EmptyString; Type_ := EmptyString;
     Scope := EmptyString; Value := EmptyString; Duration := EmptyString;
     Scenario := EmptyString; Simulated := false |}.

(** The loop [for _, d := range decisions { decision = d; if decision.Type
    == ban { break } }], started from the current value of [decision]. *)
Fixpoint pickDecision (decision : Decision) (decisions : list Decision)
  : Decision :=
  match decisions with
  | [] => decision
  | d :: rest =>
      if String.eqb (Type_ d) "ban" then d else pickDecision d rest
  end.

(** The two [switch decision.Type] statements: the cache value of a
    decision type, [unknown] for a type that is neither ban nor captcha. *)
Definition valueOfType (type unknown : string) : string :=
  if String.eqb type "ban" then cache.BannedValue
  else if String.eqb type "captcha" then cache.CaptchaValue
  else unknown.

(** The URL of the on-demand query for [remoteIP]. *)
Definition routeURL (b : Bouncer) (remoteIP : string) : string :=
  urlString (crowdsecScheme b) (crowdsecHost b) crowdsecLapiRoute
    ("ip=" +:+ remoteIP +:+ "&banned=true").

(** We are now in none or live mode. *)
Definition handleNoStreamCache (fuel : nat) (b : Bouncer) (remoteIP : string)
    (w : World) : option ((string * error) * World) :=
  let value := cache.NoBannedValue in
  let isLiveMode := String.eqb (crowdsecMode b) configuration.LiveMode in
  match crowdsecQuery fuel b (routeURL b remoteIP) false w with
  | None => None
  | Some (inr err, w1) => Some ((value, Some err), w1)
  | Some (inl body, w1) =>
      if isNull body then
        Some ((value, None),
              if isLiveMode
              then cacheSet remoteIP value (defaultDecisionTimeout b) w1
              else w1)
      else
        match unmarshalDecisions body with
        | None =>
            Some ((value, Some ("handleNoStreamCache:parseBody " +:+ jsonError)),
                  w1)
        | Some decisions =>
            if (length decisions =? 0)%nat then
              Some ((value, None),
                    if isLiveMode
                    then cacheSet remoteIP value (defaultDecisionTimeout b) w1
                    else w1)
            else
              let decision := pickDecision zeroDecision decisions in
              match time.ParseDuration (Duration decision) with
              | None =>
                  Some ((value,
                         Some ("handleNoStreamCache:parseDuration " +:+
                               durationError (Duration decision))), w1)
              | Some duration =>
                  if isLiveMode then
                    let durationSecond := time.Seconds duration in
                    let durationSecond :=
                      if defaultDecisionTimeout b <? durationSecond
                      then defaultDecisionTimeout b else durationSecond in
                    let value := valueOfType (Type_ decision) value in
                    Some ((value, Some "handleNoStreamCache:banned"),
                          cacheSet remoteIP value durationSecond w1)
                  else
                    Some ((value, Some "handleNoStreamCache:banned"), w1)
              end
        end
  end.

(** ** Streaming and CentralPoll: the refresh cycle *)

(** The body of the loop over [stream.New]. *)
Definition applyNew (w : World) (decision : Decision) : World :=
  match time.ParseDuration (Duration decision) with
  | Some duration =>
      let value := valueOfType (Type_ decision) EmptyString in
      cacheSet (Value decision) value (time.Seconds duration) w
  | None => w
  end.

(** The body of the loop over [stream.Deleted]. *)
Definition applyDeleted (w : World) (decision : Decision) : World :=
  cacheDelete (Value decision) w.

(** The URL of the stream, with the startup hint read from the two
    package-level booleans. *)
Definition streamRouteURL (b : Bouncer) (w : World) : string :=
  urlString (crowdsecScheme b) (crowdsecHost b) (crowdsecStreamRoute b)
    ("startup=" +:+
     fmtBool (negb (isCrowdsecStreamHealthy w) || isStartup w)).

Definition handleStreamCache (fuel : nat) (b : Bouncer) (w : World)
    : option (error * World) :=
  match cacheGet cacheTimeoutKey w with
  | (_, None) => Some (None, w)
  | (_, Some err) =>
      if negb (String.eqb err cache.CacheMiss) then Some (Some err, w)
      else
        let w1 := cacheSet cacheTimeoutKey cache.NoBannedValue
                    (wrap64 (updateInterval b - 1)) w in
        match crowdsecQuery fuel b (streamRouteURL b w1) false w1 with
        | None => None
        | Some (inr err, w2) => Some (Some err, w2)
        | Some (inl body, w2) =>
            match unmarshalStream body with
            | None =>
                Some (Some ("handleStreamCache:parsingBody " +:+ jsonError), w2)
            | Some stream =>
                let w3 := fold_left applyNew (New stream) w2 in
                let w4 := fold_left applyDeleted (Deleted stream) w3 in
                Some (None, setHealthy true w4)
            end
        end
  end.

Definition handleStreamTicker (fuel : nat) (b : Bouncer) (w : World)
    : option World :=
  match handleStreamCache fuel b w with
  | None => None
  | Some (Some _, w') => Some (setHealthy false w')
  | Some (None, w') => Some (setHealthy true w')
  end.

(** [startTicker] runs every tick in a goroutine of its own ([go work()]),
    so a cycle can be overtaken by others.  This is [handleStreamCache] on
    the schedule where the others run, as [rival], after the cycle has
    written the sentinel and built its URL and before it calls
    [crowdsecQuery]; the cycle goes on in the world they leave. *)
Definition handleStreamCacheRacing (rival : World -> option World)
    (fuel : nat) (b : Bouncer) (w : World) : option (error * World) :=
  match cacheGet cacheTimeoutKey w with
  | (_, None) => Some (None, w)
  | (_, Some err) =>
      if negb (String.eqb err cache.CacheMiss) then Some (Some err, w)
      else
        let w1 := cacheSet cacheTimeoutKey cache.NoBannedValue
                    (wrap64 (updateInterval b - 1)) w in
        let stringURL := streamRouteURL b w1 in
        match rival w1 with
        | None => None
        | Some w1' =>
            match crowdsecQuery fuel b stringURL false w1' with
            | None => None
            | Some (inr err, w2) => Some (Some err, w2)
            | Some (inl body, w2) =>
                match unmarshalStream body with
                | None =>
                    Some (Some ("handleStreamCache:parsingBody " +:+ jsonError),
                          w2)
                | Some stream =>
                    let w3 := fold_left applyNew (New stream) w2 in
                    let w4 := fold_left applyDeleted (Deleted stream) w3 in
                    Some (None, setHealthy true w4)
                end
            end
        end
  end.

(** ** The request path *)

Section RequestPath.

(** [ip.GetRemoteIP]: the trust resolver of package [ip], which is not
    among the sources. *)
Variable GetRemoteIP : Request -> ip.PoolStrategy -> string -> string * error.

(** ServeHTTP principal function of plugin. *)
Definition ServeHTTP (fuel : nat) (b : Bouncer) (req : Request) (w : World)
  : option World :=
  if negb (enabled b) then Some (emit EvNext w)
  else
    match GetRemoteIP req (serverPoolStrategy b) (customHeader b) with
    | (_, Some _) => Some (emit (EvWriteHeader StatusForbidden) w)
    | (remoteIP, None) =>
        match ip.Contains (ip.Checker_ (clientPoolStrategy b)) remoteIP with
        | (_, Some _) => Some (emit (EvWriteHeader StatusForbidden) w)
        | (true, None) => Some (emit EvNext w)
        | (false, None) =>
            (* Right here if we cannot join the stream we forbid the
               request to go on. *)
            let onMiss :=
              if String.eqb (crowdsecMode b) configuration.StreamMode
                 || String.eqb (crowdsecMode b) configuration.AloneMode
              then
                if isCrowdsecStreamHealthy w then Some (emit EvNext w)
                else Some (emit (EvWriteHeader StatusForbidden) w)
              else
                match handleNoStreamCache fuel b remoteIP w with
                | None => None
                | Some ((remediation, _), w1) =>
                    Some (handleRemediation remoteIP remediation b req w1)
                end in
            if negb (String.eqb (crowdsecMode b) configuration.NoneMode) then
              match cacheGet remoteIP w with
              | (_, Some errString) =>
                  if negb (String.eqb errString cache.CacheMiss) then
                    Some (emit (EvWriteHeader StatusForbidden) w)
                  else onMiss
              | (remediation, None) =>
                  Some (handleRemediation remoteIP remediation b req w)
              end
            else onMiss
        end
    end.

End RequestPath.

(** ** A concrete deployment

    One bouncer per mode, in front of a decision source whose responses are
    scripted, used to run the model. *)

(** A trust resolver that takes the peer address as it is. *)
Definition peerResolver (req : Request) (_ : ip.PoolStrategy) (_ : string)
  : string * error :=
  (RemoteAddr req, None).

Definition loopbackOnly : ip.PoolStrategy :=
  {| ip.Checker_ :=
       {| ip.Contains := fun addr => (String.eqb addr "127.0.0.1", None) |} |}.

(** A challenge provider that is down, with fallback ban. *)
Definition captchaDown : captcha.Client :=
  {| captcha.Valid := false; captcha.FallbackRemediation := "ban";
     captcha.CheckCookie := fun _ => false |}.

(** A working challenge provider; a request holds a verified cookie when it
    carries the header Cookie. *)
Definition captchaUp : captcha.Client :=
  {| captcha.Valid := true; captcha.FallbackRemediation := "captcha";
     captcha.CheckCookie :=
       fun req => existsb (fun h => String.eqb (fst h) "Cookie") (Header req) |}.

Definition bouncerIn (mode : string) (challenge : captcha.Client) : Bouncer :=
  {| enabled := true;
     crowdsecScheme :=
       if String.eqb mode configuration.AloneMode then "https" else "http";
     crowdsecHost :=
       if String.eqb mode configuration.AloneMode
       then "api.crowdsec.net" else "crowdsec:8080";
     crowdsecMode := mode;
     crowdsecMachineID := "machine";
     crowdsecPassword := "secret";
     crowdsecScenarios := ["crowdsecurity/http-probing"];
     updateInterval :=
       if String.eqb mode configuration.AloneMode then 7200 else 60;
     defaultDecisionTimeout := 3600;
     customHeader := EmptyString;
     crowdsecStreamRoute :=
       if String.eqb mode configuration.AloneMode
       then crowdsecCapiStreamRoute else crowdsecLapiStreamRoute;
     crowdsecHeader :=
       if String.eqb mode configuration.AloneMode
       then crowdsecCapiHeader else crowdsecLapiHeader;
     clientPoolStrategy := loopbackOnly;
     serverPoolStrategy := loopbackOnly;
     captchaClient := challenge |}.

(** The world at second 1000: an empty cache, a healthy stream, and the
    given responses to come. *)
Definition worldWith (responses : list Response) : World :=
  {| crowdsecKey := "key"; isStartup := false;
     isCrowdsecStreamHealthy := true; cacheStore := ∅; clock := 1000;
     pending := responses; trace := [] |}.

Definition visitor : Request :=
  {| RemoteAddr := "10.0.0.7"; Header := []; URLPath := "/index.html" |}.

Definition returningVisitor : Request :=
  {| RemoteAddr := "10.0.0.7"; Header := [("Cookie", "crowdsec_captcha=ok")];
     URLPath := "/index.html" |}.

Definition localRequest : Request :=
  {| RemoteAddr := "127.0.0.1"; Header := []; URLPath := "/" |}.

Definition decisionOf (type subject duration : string) : Decision :=
  {| ID := 1; Origin := "crowdsec"; Type_ := type; Scope := "Ip";
     Value := subject; Duration := duration;
     Scenario := "crowdsecurity/http-probing"; Simulated := false |}.

(** The number of calls of [httpClient.Do] in a trace, and the number of
    those for the URL [u]. *)
Definition isDo (ev : Event) : bool :=
  match ev with EvDo _ => true | _ => false end.

Definition isDoOf (u : string) (ev : Event) : bool :=
  match ev with EvDo req => String.eqb (url req) u | _ => false end.

Definition calls (evs : list Event) : nat := length (List.filter isDo evs).

Definition callsOf (u : string) (evs : list Event) : nat :=
  length (List.filter (isDoOf u) evs).

(** ** Reference readings of the decision selection *)

Definition isBan (d : Decision) : bool := String.eqb (Type_ d) "ban".

(** The first decision of type ban when there is one, otherwise the first
    decision in source order. *)
Definition firstBanElseFirst (decisions : list Decision) : Decision :=
  match List.find isBan decisions with
  | Some d => d
  | None => List.hd zeroDecision decisions
  end.

(** The first decision of type ban when there is one, otherwise the last
    decision in source order. *)
Definition firstBanElseLast (decisions : list Decision) : Decision :=
  match List.find isBan decisions with
  | Some d => d
  | None => List.last decisions zeroDecision
  end.

(** ** Scripts of the central API *)

(** A 401, and the answer to a login that hands out [token]. *)
Definition unauthorized : Response :=
  Reply StatusUnauthorized (inl BodyInvalid).

Definition loginReply (token : string) : Response :=
  Reply StatusOK
    (inl (BodyLogin {| Code := 200; Token := token; Expire := "2h" |})).

(** One 401 followed by one successful login, for each of [tokens]. *)
Definition renewals (tokens : list string) : list Response :=
  flat_map (fun token => [unauthorized; loginReply token]) tokens.

(** What the client is asked over such rounds when the original request is
    sent under [key]: the request; then, for each token in turn, the
    credentials, as a POST to the login route under the key held so far,
    and the request again, as a GET under that token. *)
Fixpoint renewalCalls (b : Bouncer) (stringURL : string) (isPost : bool)
    (key : string) (tokens : list string) : list Event :=
  EvDo (if isPost then
          {| method := MethodPost; url := stringURL;
             headerName := crowdsecHeader b; headerValue := key;
             data := loginData b |}
        else
          {| method := MethodGet; url := stringURL;
             headerName := crowdsecHeader b; headerValue := key;
             data := EmptyString |})
  :: match tokens with
     | [] => []
     | token :: tokens' =>
         EvDo {| method := MethodPost; url := loginURL b;
                 headerName := crowdsecHeader b; headerValue := key;
                 data := loginData b |}
         :: renewalCalls b stringURL false token tokens'
     end.

(** ** Reading traces and streams *)

(** The events that answer the inbound request. *)
Definition isResponse (ev : Event) : bool :=
  match ev with
  | EvNext | EvWriteHeader _ | EvChallenge _ => true
  | _ => false
  end.

Definition responses (evs : list Event) : nat :=
  length (List.filter isResponse evs).

(** The world after the events [evs], in order, and nothing else. *)
Definition emitAll (evs : list Event) (w : World) : World :=
  fold_left (fun w' ev => emit ev w') evs w.

(** The decisions of a list whose duration parses. *)
Definition parsable (d : Decision) : bool :=
  match time.ParseDuration (Duration d) with
  | Some _ => true
  | None => false
  end.

(** ** Construction of the bouncer *)

(** The fields of [configuration.Config] that [New] reads into the bouncer
    or assigns.  The others (log level, TLS files, Redis and captcha
    settings) are read only by functions of the packages that are not among
    the sources, which are parameters below. *)
Record Config := {
  Enabled : bool;
  CrowdsecMode : string;
  CrowdsecLapiScheme : string;
  CrowdsecLapiHost : string;
  CrowdsecLapiKey : string;
  CrowdsecCapiMachineID : string;
  CrowdsecCapiPassword : string;
  CrowdsecCapiScenarios : list string;
  UpdateIntervalSeconds : Z;
  DefaultDecisionSeconds : Z;
  ForwardedHeadersCustomName : string;
  ForwardedHeadersTrustedIPs : list string;
  ClientTrustedIPs : list string;
  RedisCachePassword : string
}.

(** The assignments [New] makes to fields of [config]. *)
Definition setCapiMachineID (x : string) (config : Config) : Config :=
  {| Enabled := Enabled config;
     CrowdsecMode := CrowdsecMode config;
     CrowdsecLapiScheme := CrowdsecLapiScheme config;
     CrowdsecLapiHost := CrowdsecLapiHost config;
     CrowdsecLapiKey := CrowdsecLapiKey config;
     CrowdsecCapiMachineID := x;
     CrowdsecCapiPassword := CrowdsecCapiPassword config;
     CrowdsecCapiScenarios := CrowdsecCapiScenarios config;
     UpdateIntervalSeconds := UpdateIntervalSeconds config;
     DefaultDecisionSeconds := DefaultDecisionSeconds config;
     ForwardedHeadersCustomName := ForwardedHeadersCustomName config;
     ForwardedHeadersTrustedIPs := ForwardedHeadersTrustedIPs config;
     ClientTrustedIPs := ClientTrustedIPs config;
     RedisCachePassword := RedisCachePassword config |}.

Definition setCapiPassword (x : string) (config : Config) : Config :=
  {| Enabled := Enabled config;
     CrowdsecMode := CrowdsecMode config;
     CrowdsecLapiScheme := CrowdsecLapiScheme config;
     CrowdsecLapiHost := CrowdsecLapiHost config;
     CrowdsecLapiKey := CrowdsecLapiKey config;
     CrowdsecCapiMachineID := CrowdsecCapiMachineID config;
     CrowdsecCapiPassword := x;
     CrowdsecCapiScenarios := CrowdsecCapiScenarios config;
     UpdateIntervalSeconds := UpdateIntervalSeconds config;
     DefaultDecisionSeconds := DefaultDecisionSeconds config;
     ForwardedHeadersCustomName := ForwardedHeadersCustomName config;
     ForwardedHeadersTrustedIPs := ForwardedHeadersTrustedIPs config;
     ClientTrustedIPs := ClientTrustedIPs config;
     RedisCachePassword := RedisCachePassword config |}.

Definition setLapiHost (x : string) (config : Config) : Config :=
  {| Enabled := Enabled config;
     CrowdsecMode := CrowdsecMode config;
     CrowdsecLapiScheme := CrowdsecLapiScheme config;
     CrowdsecLapiHost := x;
     CrowdsecLapiKey := CrowdsecLapiKey config;
     CrowdsecCapiMachineID := CrowdsecCapiMachineID config;
     CrowdsecCapiPassword := CrowdsecCapiPassword config;
     CrowdsecCapiScenarios := CrowdsecCapiScenarios config;
     UpdateIntervalSeconds := UpdateIntervalSeconds config;
     DefaultDecisionSeconds := DefaultDecisionSeconds config;
     ForwardedHeadersCustomName := ForwardedHeadersCustomName config;
     ForwardedHeadersTrustedIPs := ForwardedHeadersTrustedIPs config;
     ClientTrustedIPs := ClientTrustedIPs config;
     RedisCachePassword := RedisCachePassword config |}.

Definition setLapiScheme (x : string) (config : Config) : Config :=
  {| Enabled := Enabled config;
     CrowdsecMode := CrowdsecMode config;
     CrowdsecLapiScheme := x;
     CrowdsecLapiHost := CrowdsecLapiHost config;
     CrowdsecLapiKey := CrowdsecLapiKey config;
     CrowdsecCapiMachineID := CrowdsecCapiMachineID config;
     CrowdsecCapiPassword := CrowdsecCapiPassword config;
     CrowdsecCapiScenarios := CrowdsecCapiScenarios config;
     UpdateIntervalSeconds := UpdateIntervalSeconds config;
     DefaultDecisionSeconds := DefaultDecisionSeconds config;
     ForwardedHeadersCustomName := ForwardedHeadersCustomName config;
     ForwardedHeadersTrustedIPs := ForwardedHeadersTrustedIPs config;
     ClientTrustedIPs := ClientTrustedIPs config;
     RedisCachePassword := RedisCachePassword config |}.

Definition setUpdateInterval (x : Z) (config : Config) : Config :=
  {| Enabled := Enabled config;
     CrowdsecMode := CrowdsecMode config;
     CrowdsecLapiScheme := CrowdsecLapiScheme config;
     CrowdsecLapiHost := CrowdsecLapiHost config;
     CrowdsecLapiKey := CrowdsecLapiKey config;
     CrowdsecCapiMachineID := CrowdsecCapiMachineID config;
     CrowdsecCapiPassword := CrowdsecCapiPassword config;
     CrowdsecCapiScenarios := CrowdsecCapiScenarios config;
     UpdateIntervalSeconds := x;
     DefaultDecisionSeconds := DefaultDecisionSeconds config;
     ForwardedHeadersCustomName := ForwardedHeadersCustomName config;
     ForwardedHeadersTrustedIPs := ForwardedHeadersTrustedIPs config;
     ClientTrustedIPs := ClientTrustedIPs config;
     RedisCachePassword := RedisCachePassword config |}.

Definition setLapiKey (x : string) (config : Config) : Config :=
  {| Enabled := Enabled config;
     CrowdsecMode := CrowdsecMode config;
     CrowdsecLapiScheme := CrowdsecLapiScheme config;
     CrowdsecLapiHost := CrowdsecLapiHost config;
     CrowdsecLapiKey := x;
     CrowdsecCapiMachineID := CrowdsecCapiMachineID config;
     CrowdsecCapiPassword := CrowdsecCapiPassword config;
     CrowdsecCapiScenarios := CrowdsecCapiScenarios config;
     UpdateIntervalSeconds := UpdateIntervalSeconds config;
     DefaultDecisionSeconds := DefaultDecisionSeconds config;
     ForwardedHeadersCustomName := ForwardedHeadersCustomName config;
     ForwardedHeadersTrustedIPs := ForwardedHeadersTrustedIPs config;
     ClientTrustedIPs := ClientTrustedIPs config;
     RedisCachePassword := RedisCachePassword config |}.

Definition setRedisCachePassword (x : string) (config : Config) : Config :=
  {| Enabled := Enabled config;
     CrowdsecMode := CrowdsecMode config;
     CrowdsecLapiScheme := CrowdsecLapiScheme config;
     CrowdsecLapiHost := CrowdsecLapiHost config;
     CrowdsecLapiKey := CrowdsecLapiKey config;
     CrowdsecCapiMachineID := CrowdsecCapiMachineID config;
     CrowdsecCapiPassword := CrowdsecCapiPassword config;
     CrowdsecCapiScenarios := CrowdsecCapiScenarios config;
     UpdateIntervalSeconds := UpdateIntervalSeconds config;
     DefaultDecisionSeconds := DefaultDecisionSeconds config;
     ForwardedHeadersCustomName := ForwardedHeadersCustomName config;
     ForwardedHeadersTrustedIPs := ForwardedHeadersTrustedIPs config;
     ClientTrustedIPs := ClientTrustedIPs config;
     RedisCachePassword := x |}.

(** The functions [New] calls in the packages that are not among the
    sources, as parameters: [configuration.ValidateParams];
    [ip.NewChecker], whose error [New] drops; [configuration.GetVariable];
    [configuration.GetTLSConfigCrowdsec], by the number of client
    certificates of the TLS configuration it returns; and
    [captchaClient.New], by the client it sets up (its error is only
    logged). *)
Record Env := {
  ValidateParams : Config -> error;
  NewChecker : list string -> ip.Checker;
  GetVariable : Config -> string -> string * error;
  GetTLSConfigCrowdsec : Config -> nat * error;
  NewCaptchaClient : Config -> captcha.Client
}.

(** The state of the process: the world as the bouncer under construction
    sees it (its own key, the shared booleans, cache and decision source)
    and whether the package-level [ticker] is set. *)
Record Process := { world : World; ticker : bool }.

Definition setStartup (s : bool) (w : World) : World :=
  {| crowdsecKey := crowdsecKey w; isStartup := s;
     isCrowdsecStreamHealthy := isCrowdsecStreamHealthy w;
     cacheStore := cacheStore w; clock := clock w; pending := pending w;
     trace := trace w |}.

Definition isError (e : error) : bool :=
  match e with Some _ => true | None => false end.

Module plugin.

(** New creates the crowdsec bouncer plugin.  The result is the handler
    (none for Go's nil) with the error, the configuration as [New] leaves
    it, and the new state of the process.  Creating the cache client leaves
    the storage behind it as it is; [startTicker] only sets [ticker] here,
    each later tick being a call of [handleStreamTicker]. *)
Definition New (env : Env) (fuel : nat) (config : Config) (p : Process)
  : option ((option Bouncer * error) * Config * Process) :=
  match ValidateParams env config with
  | Some err => Some ((None, Some err), config, p)
  | None =>
      let serverChecker := NewChecker env (ForwardedHeadersTrustedIPs config) in
      let clientChecker := NewChecker env (ClientTrustedIPs config) in
      let setup : Config * string * string + error :=
        if String.eqb (CrowdsecMode config) configuration.AloneMode then
          let config :=
            setCapiMachineID
              (fst (GetVariable env config "CrowdsecCapiMachineID")) config in
          let config :=
            setCapiPassword
              (fst (GetVariable env config "CrowdsecCapiPassword")) config in
          let config := setLapiHost "api.crowdsec.net" config in
          let config := setLapiScheme "https" config in
          let config := setUpdateInterval 7200 config in
          inl (config, crowdsecCapiStreamRoute, crowdsecCapiHeader)
        else
          match GetTLSConfigCrowdsec env config with
          | (_, Some err) => inr (Some err)
          | (certificates, None) =>
              let '(apiKey, errAPIKey) :=
                GetVariable env config "CrowdsecLapiKey" in
              if isError errAPIKey && (certificates =? 0)%nat then
                (* return nil, err: err is the nil left by the call above *)
                inr None
              else
                inl (setLapiKey apiKey config, crowdsecLapiStreamRoute,
                     crowdsecLapiHeader)
          end in
      match setup with
      | inr err => Some ((None, err), config, p)
      | inl (config, streamRoute, header) =>
          let config' :=
            setRedisCachePassword
              (fst (GetVariable env config "RedisCachePassword")) config in
          let bouncer :=
            {| enabled := Enabled config;
               crowdsecScheme := CrowdsecLapiScheme config;
               crowdsecHost := CrowdsecLapiHost config;
               crowdsecMode := CrowdsecMode config;
               crowdsecMachineID := CrowdsecCapiMachineID config;
               crowdsecPassword := CrowdsecCapiPassword config;
               crowdsecScenarios := CrowdsecCapiScenarios config;
               updateInterval := UpdateIntervalSeconds config;
               defaultDecisionTimeout := DefaultDecisionSeconds config;
               customHeader := ForwardedHeadersCustomName config;
               crowdsecStreamRoute := streamRoute;
               crowdsecHeader := header;
               clientPoolStrategy := {| ip.Checker_ := clientChecker |};
               serverPoolStrategy := {| ip.Checker_ := serverChecker |};
               captchaClient := NewCaptchaClient env config' |} in
          let w := setKey (CrowdsecLapiKey config) (world p) in
          if (String.eqb (CrowdsecMode config') configuration.StreamMode
              || String.eqb (CrowdsecMode config') configuration.AloneMode)
             && negb (ticker p) then
            let login :=
              if String.eqb (CrowdsecMode config') configuration.AloneMode
              then getToken fuel bouncer w else Some (None, w) in
            match login with
            | None => None
            | Some (Some err, w1) =>
                Some ((None, Some err), config',
                      {| world := w1; ticker := false |})
            | Some (None, w1) =>
                match handleStreamTicker fuel bouncer w1 with
                | None => None
                | Some w2 =>
                    Some ((Some bouncer, None), config',
                          {| world := setStartup false w2; ticker := true |})
                end
            end
          else
            Some ((Some bouncer, None), config',
                  {| world := w; ticker := ticker p |})
      end
  end.

End plugin.

(** An environment in which everything is in order: the parameters are
    valid, every variable is found with the value its field has, and there
    is no client certificate. *)
Definition plainEnv : Env :=
  {| ValidateParams := fun _ => None;
     NewChecker := fun _ => ip.Checker_ loopbackOnly;
     GetVariable :=
       fun config name =>
         if String.eqb name "CrowdsecLapiKey" then (CrowdsecLapiKey config, None)
         else if String.eqb name "CrowdsecCapiMachineID"
         then (CrowdsecCapiMachineID config, None)
         else if String.eqb name "CrowdsecCapiPassword"
         then (CrowdsecCapiPassword config, None)
         else (RedisCachePassword config, None);
     GetTLSConfigCrowdsec := fun _ => (0%nat, None);
     NewCaptchaClient := fun _ => captchaDown |}.

(** The same environment with no LAPI key to be found. *)
Definition keylessEnv : Env :=
  {| ValidateParams := ValidateParams plainEnv;
     NewChecker := NewChecker plainEnv;
     GetVariable :=
       fun config name =>
         if String.eqb name "CrowdsecLapiKey"
         then (EmptyString, Some "CrowdsecLapiKey not found")
         else GetVariable plainEnv config name;
     GetTLSConfigCrowdsec := GetTLSConfigCrowdsec plainEnv;
     NewCaptchaClient := NewCaptchaClient plainEnv |}.

Definition configIn (mode : string) : Config :=
  {| Enabled := true; CrowdsecMode := mode; CrowdsecLapiScheme := "http";
     CrowdsecLapiHost := "crowdsec:8080"; CrowdsecLapiKey := "key";
     CrowdsecCapiMachineID := "machine"; CrowdsecCapiPassword := "secret";
     CrowdsecCapiScenarios := ["crowdsecurity/http-probing"];
     UpdateIntervalSeconds := 60; DefaultDecisionSeconds := 3600;
     ForwardedHeadersCustomName := EmptyString;
     ForwardedHeadersTrustedIPs := ["127.0.0.1"];
     ClientTrustedIPs := ["127.0.0.1"]; RedisCachePassword := EmptyString |}.

(** A process that has built no bouncer yet, in front of a decision source
    with the given answers. *)
Definition freshProcess (responses : list Response) : Process :=
  {| world := setStartup true (worldWith responses); ticker := false |}.

(** * Properties *)

(** ** Evaluating the duration parser *)

Example ParseDuration_4h : time.ParseDuration "4h" = Some (4 * time.Hour).
Proof. reflexivity. Qed.

Example ParseDuration_mixed :
  time.ParseDuration "3h59m58.5s" = Some 14398500000000.
Proof. reflexivity. Qed.

Example ParseDuration_rejects :
  time.ParseDuration "42" = None /\ time.ParseDuration "forever" = None /\
  time.ParseDuration EmptyString = None /\ time.ParseDuration ".h" = None.
Proof. repeat split; reflexivity. Qed.

(** The fraction of a component goes through [float64]: twenty nines
    after the period are a whole second. *)
Example ParseDuration_fraction_rounds :
  time.ParseDuration "0.99999999999999999999s" = Some time.Second /\
  time.ParseDuration "0.3333333333h" = Some 1199999999880.
Proof. split; vm_compute; reflexivity. Qed.

(** So do the seconds of a duration: below [2 ^ 24] seconds the fraction
    of a second is dropped, above it can round the seconds up. *)
Example Seconds_through_float64 :
  time.Seconds (4 * time.Hour + 999999999) = 14400 /\
  time.Seconds (4661 * time.Hour + 999999999) = 16779601 /\
  time.Seconds (- (4661 * time.Hour + 999999999)) = - 16779601.
Proof. repeat split; vm_compute; reflexivity. Qed.

(** ** The cache contract *)

Lemma wrap64_small z : - 2 ^ 63 <= z < 2 ^ 63 -> wrap64 z = z.
Proof.
  intros Hz. unfold wrap64.
  rewrite Z.mod_small by lia. lia.
Qed.

Lemma Get_Set_eq store now key val ttl t :
  t < now + ttl ->
  cache.Get (cache.Set_ store now key val ttl) t key = (val, None).
Proof.
  intros Ht. unfold cache.Get, cache.Set_.
  rewrite lookup_insert_eq. simpl.
  destruct (Z.ltb_spec t (now + ttl)); [reflexivity | lia].
Qed.

Lemma Get_Set_ne store now key key' val ttl t :
  key <> key' ->
  cache.Get (cache.Set_ store now key val ttl) t key' = cache.Get store t key'.
Proof.
  intros Hne. unfold cache.Get, cache.Set_.
  now rewrite lookup_insert_ne.
Qed.

Lemma Get_Delete_eq store key t :
  cache.Get (cache.Delete store key) t key = (EmptyString, Some cache.CacheMiss).
Proof. unfold cache.Get, cache.Delete. now rewrite lookup_delete_eq. Qed.

Lemma Get_absent store key t :
  store !! key = None ->
  cache.Get store t key = (EmptyString, Some cache.CacheMiss).
Proof. intros H. unfold cache.Get. now rewrite H. Qed.

(** ** Queries leave the cache alone, and fuel is only a bound *)

Lemma Do_frame req w res w' :
  Do req w = (res, w') ->
  cacheStore w' = cacheStore w /\ clock w' = clock w /\
  isStartup w' = isStartup w /\
  (length (pending w') <= length (pending w))%nat.
Proof.
  unfold Do. destruct (pending w) as [|r rest] eqn:Hp;
    intros [= <- <-]; simpl; rewrite ?Hp; simpl; repeat split; lia.
Qed.

Lemma query_frame fuel :
  (forall b stringURL isPost w r w',
      crowdsecQuery fuel b stringURL isPost w = Some (r, w') ->
      cacheStore w' = cacheStore w /\ clock w' = clock w /\
      isStartup w' = isStartup w /\
      (length (pending w') <= length (pending w))%nat) /\
  (forall b w e w',
      getToken fuel b w = Some (e, w') ->
      cacheStore w' = cacheStore w /\ clock w' = clock w /\
      isStartup w' = isStartup w /\
      (length (pending w') <= length (pending w))%nat).
Proof.
  induction fuel as [|fuel [IHq IHt]]; [split; intros; discriminate|].
  split.
  - intros b stringURL isPost w r w' H. cbn [crowdsecQuery] in H.
    destruct (Do _ w) as [res w1] eqn:HDo.
    apply Do_frame in HDo. destruct HDo as (Hc & Hk & Hs & Hp).
    destruct res as [err|code body].
    + injection H as <- <-. repeat split; assumption.
    + destruct ((code =? StatusUnauthorized) && _) eqn:Hrenew.
      * destruct (getToken fuel b w1) as [[[errToken|] w2]|] eqn:Ht;
          [| |discriminate].
        -- injection H as <- <-. apply IHt in Ht.
           destruct Ht as (-> & -> & -> & ?). repeat split; try assumption. lia.
        -- apply IHt in Ht. apply IHq in H.
           destruct H as (-> & -> & -> & ?), Ht as (-> & -> & -> & ?).
           repeat split; try assumption. lia.
      * destruct (negb (code =? StatusOK)).
        -- injection H as <- <-. repeat split; assumption.
        -- destruct body; injection H as <- <-; repeat split; assumption.
  - intros b w e w' H. cbn [getToken] in H.
    destruct (crowdsecQuery fuel b (loginURL b) true w)
      as [[[body|err] w1]|] eqn:Hq; [| |discriminate].
    + apply IHq in Hq. destruct Hq as (Hc & Hk & Hs & Hp).
      destruct (unmarshalLogin body) as [login|].
      * destruct ((Code login =? 200) && _); injection H as <- <-;
          simpl; repeat split; assumption.
      * injection H as <- <-. simpl. repeat split; assumption.
    + injection H as <- <-. now apply IHq in Hq.
Qed.


(** ** The request path: trusted clients and the health default *)

Section RequestPathProperties.

Variable GetRemoteIP : Request -> ip.PoolStrategy -> string -> string * error.

(** C7. A request whose resolved client IP is inside the trusted-client
    set is passed to the next handler and nothing else happens: the
    dispatcher is not entered (no [EvRemediation]), whatever the cache
    holds for that IP. *)
Theorem trusted_ip_bypasses_remediation fuel b req w remoteIP :
  GetRemoteIP req (serverPoolStrategy b) (customHeader b) = (remoteIP, None) ->
  ip.Contains (ip.Checker_ (clientPoolStrategy b)) remoteIP = (true, None) ->
  ServeHTTP GetRemoteIP fuel b req w = Some (emit EvNext w) /\
  forall verdict ttl,
    ServeHTTP GetRemoteIP fuel b req (cacheSet remoteIP verdict ttl w)
    = Some (emit EvNext (cacheSet remoteIP verdict ttl w)).
Proof.
  intros Hip Htrusted.
  assert (H : forall w0, ServeHTTP GetRemoteIP fuel b req w0
                         = Some (emit EvNext w0)).
  { intros w0. unfold ServeHTTP. rewrite Hip, Htrusted.
    now destruct (enabled b). }
  split; [apply H | intros; apply H].
Qed.

(** C1. In stream or alone mode, a request of an enabled bouncer whose IP
    resolves, is not trusted and misses the cache is passed to the next
    handler when the stream is healthy and answered 403 when it is not;
    no query is made. *)
Theorem stream_miss_follows_health fuel b req w remoteIP :
  enabled b = true ->
  crowdsecMode b = configuration.StreamMode \/
  crowdsecMode b = configuration.AloneMode ->
  GetRemoteIP req (serverPoolStrategy b) (customHeader b) = (remoteIP, None) ->
  ip.Contains (ip.Checker_ (clientPoolStrategy b)) remoteIP = (false, None) ->
  snd (cacheGet remoteIP w) = Some cache.CacheMiss ->
  ServeHTTP GetRemoteIP fuel b req w =
  Some (emit (if isCrowdsecStreamHealthy w then EvNext
              else EvWriteHeader StatusForbidden) w).
Proof.
  intros Hen Hmode Hip Htrust Hmiss.
  unfold ServeHTTP. rewrite Hen, Hip, Htrust. simpl negb. cbv iota.
  destruct (cacheGet remoteIP w) as [v e]. simpl in Hmiss. subst e.
  rewrite String.eqb_refl. simpl negb.
  assert (Hstream :
    String.eqb (crowdsecMode b) configuration.StreamMode
    || String.eqb (crowdsecMode b) configuration.AloneMode = true).
  { destruct Hmode as [-> | ->]; reflexivity. }
  assert (Hnone :
    String.eqb (crowdsecMode b) configuration.NoneMode = false).
  { destruct Hmode as [-> | ->]; reflexivity. }
  rewrite Hstream, Hnone. simpl.
  now destruct (isCrowdsecStreamHealthy w).
Qed.

End RequestPathProperties.

Lemma trusted_ip_bypasses_remediation_witness :
  ServeHTTP peerResolver 0 (bouncerIn configuration.LiveMode captchaDown)
    localRequest
    (cacheSet "127.0.0.1" cache.BannedValue 3600 (worldWith []))
  = Some (emit EvNext
            (cacheSet "127.0.0.1" cache.BannedValue 3600 (worldWith []))).
Proof.
  apply (trusted_ip_bypasses_remediation peerResolver 0
           (bouncerIn configuration.LiveMode captchaDown) localRequest
           (worldWith []) "127.0.0.1"); reflexivity.
Defined.

Lemma stream_miss_follows_health_witness :
  ServeHTTP peerResolver 0 (bouncerIn configuration.StreamMode captchaDown)
    visitor (setHealthy false (worldWith []))
  = Some (emit (EvWriteHeader StatusForbidden)
            (setHealthy false (worldWith []))) /\
  ServeHTTP peerResolver 0 (bouncerIn configuration.AloneMode captchaDown)
    visitor (worldWith [])
  = Some (emit EvNext (worldWith [])).
Proof.
  split.
  - apply (stream_miss_follows_health peerResolver 0
             (bouncerIn configuration.StreamMode captchaDown) visitor
             (setHealthy false (worldWith [])) "10.0.0.7");
      try reflexivity.
    left; reflexivity.
  - apply (stream_miss_follows_health peerResolver 0
             (bouncerIn configuration.AloneMode captchaDown) visitor
             (worldWith []) "10.0.0.7");
      try reflexivity.
    right; reflexivity.
Defined.

(** ** The remediation dispatcher *)

(** C6. With the challenge provider marked invalid and fallback remediation
    ban, a captcha verdict is dispatched exactly like a banned one: 403 is
    written, and neither the challenge page nor the next handler is
    reached. *)
Theorem captcha_falls_back_to_ban remoteIP b req w :
  captcha.Valid (captchaClient b) = false ->
  captcha.FallbackRemediation (captchaClient b) = "ban" ->
  handleRemediation remoteIP cache.CaptchaValue b req w
  = handleRemediation remoteIP cache.BannedValue b req w /\
  handleRemediation remoteIP cache.CaptchaValue b req w
  = emit (EvWriteHeader StatusForbidden) (emit (EvRemediation remoteIP) w).
Proof.
  intros Hvalid Hfallback. unfold handleRemediation.
  rewrite Hvalid, Hfallback. split; reflexivity.
Qed.

Lemma captcha_falls_back_to_ban_witness :
  handleRemediation "10.0.0.7" cache.CaptchaValue
    (bouncerIn configuration.StreamMode captchaDown) visitor (worldWith [])
  = emit (EvWriteHeader StatusForbidden)
      (emit (EvRemediation "10.0.0.7") (worldWith [])).
Proof.
  apply (captcha_falls_back_to_ban "10.0.0.7"
           (bouncerIn configuration.StreamMode captchaDown) visitor
           (worldWith [])); reflexivity.
Defined.

(** ** The refresh cycle *)

(** Applying the decisions of a stream touches nothing but the cache. *)
Lemma applyNew_frame ds w :
  let w' := fold_left applyNew ds w in
  clock w' = clock w /\ trace w' = trace w /\ pending w' = pending w /\
  crowdsecKey w' = crowdsecKey w /\ isStartup w' = isStartup w /\
  isCrowdsecStreamHealthy w' = isCrowdsecStreamHealthy w.
Proof.
  revert w. induction ds as [|d ds IH]; intros w; simpl; [tauto|].
  specialize (IH (applyNew w d)). simpl in IH.
  destruct IH as (-> & -> & -> & -> & -> & ->).
  unfold applyNew. destruct (time.ParseDuration (Duration d)); simpl; tauto.
Qed.

Lemma applyDeleted_frame ds w :
  let w' := fold_left applyDeleted ds w in
  clock w' = clock w /\ trace w' = trace w /\ pending w' = pending w /\
  crowdsecKey w' = crowdsecKey w /\ isStartup w' = isStartup w /\
  isCrowdsecStreamHealthy w' = isCrowdsecStreamHealthy w.
Proof.
  revert w. induction ds as [|d ds IH]; intros w; simpl; [tauto|].
  specialize (IH (applyDeleted w d)). simpl in IH.
  destruct IH as (-> & -> & -> & -> & -> & ->). simpl. tauto.
Qed.

Lemma applyNew_other ds w key :
  (forall d, In d ds -> Value d <> key) ->
  cacheStore (fold_left applyNew ds w) !! key = cacheStore w !! key.
Proof.
  revert w. induction ds as [|d ds IH]; intros w Hds; simpl; [reflexivity|].
  rewrite IH by (intros d' Hd'; apply Hds; now right).
  unfold applyNew. destruct (time.ParseDuration (Duration d)); [|reflexivity].
  simpl. unfold cache.Set_. apply lookup_insert_ne. apply Hds. now left.
Qed.

Lemma applyDeleted_other ds w key :
  (forall d, In d ds -> Value d <> key) ->
  cacheStore (fold_left applyDeleted ds w) !! key = cacheStore w !! key.
Proof.
  revert w. induction ds as [|d ds IH]; intros w Hds; simpl; [reflexivity|].
  rewrite IH by (intros d' Hd'; apply Hds; now right).
  simpl. unfold cache.Delete. apply lookup_delete_ne. apply Hds. now left.
Qed.

Lemma applyDeleted_absent ds w key :
  cacheStore w !! key = None ->
  cacheStore (fold_left applyDeleted ds w) !! key = None.
Proof.
  revert w. induction ds as [|d ds IH]; intros w Hw; simpl; [assumption|].
  apply IH. simpl. unfold cache.Delete.
  destruct (decide (Value d = key)) as [->|Hne].
  - apply lookup_delete_eq.
  - now rewrite lookup_delete_ne.
Qed.

Lemma applyDeleted_removes ds w d :
  In d ds -> cacheStore (fold_left applyDeleted ds w) !! Value d = None.
Proof.
  revert w. induction ds as [|d0 ds IH]; intros w Hin; [contradiction|].
  simpl. destruct Hin as [->|Hin]; [|now apply IH].
  apply applyDeleted_absent. simpl. apply lookup_delete_eq.
Qed.

(** The last parsable [new] decision for a subject decides its entry. *)
Lemma applyNew_last before d after w dur :
  time.ParseDuration (Duration d) = Some dur ->
  (forall d', In d' after -> Value d' <> Value d) ->
  cacheStore (fold_left applyNew (before ++ d :: after) w) !! Value d
  = Some {| cache.value := valueOfType (Type_ d) EmptyString;
            cache.expiry := clock w + time.Seconds dur |}.
Proof.
  intros Hdur Hafter. rewrite fold_left_app. simpl.
  rewrite applyNew_other by assumption.
  unfold applyNew at 1. rewrite Hdur. simpl. unfold cache.Set_.
  rewrite lookup_insert_eq.
  now destruct (applyNew_frame before w) as (-> & _).
Qed.

(** A cycle that finds the sentinel does nothing and succeeds. *)
Lemma fresh_cycle_is_noop fuel b w :
  snd (cacheGet cacheTimeoutKey w) = None ->
  handleStreamCache fuel b w = Some (None, w).
Proof.
  intros Hhit. unfold handleStreamCache.
  destruct (cacheGet cacheTimeoutKey w) as [v e]. simpl in Hhit. now subst e.
Qed.

(** A cycle that misses the sentinel marks the cache, queries the stream and
    applies first the new decisions, then the deleted ones. *)
Lemma stale_cycle_unfold fuel b w :
  snd (cacheGet cacheTimeoutKey w) = Some cache.CacheMiss ->
  handleStreamCache fuel b w =
  let w1 := cacheSet cacheTimeoutKey cache.NoBannedValue
              (wrap64 (updateInterval b - 1)) w in
  match crowdsecQuery fuel b (streamRouteURL b w1) false w1 with
  | None => None
  | Some (inr err, w2) => Some (Some err, w2)
  | Some (inl body, w2) =>
      match unmarshalStream body with
      | None => Some (Some ("handleStreamCache:parsingBody " +:+ jsonError), w2)
      | Some stream =>
          Some (None,
                setHealthy true
                  (fold_left applyDeleted (Deleted stream)
                     (fold_left applyNew (New stream) w2)))
      end
  end.
Proof.
  intros Hmiss. unfold handleStreamCache.
  destruct (cacheGet cacheTimeoutKey w) as [v e]. simpl in Hmiss. subst e.
  reflexivity.
Qed.

(** C4. In a refresh cycle the new decisions are all written before the
    deleted ones are removed, so a subject that is in the deleted list, in
    the new list or not, is a cache miss when the cycle ends. *)
Theorem deleted_wins_over_new fuel b w body stream w2 :
  snd (cacheGet cacheTimeoutKey w) = Some cache.CacheMiss ->
  crowdsecQuery fuel b
    (streamRouteURL b (cacheSet cacheTimeoutKey cache.NoBannedValue
                         (wrap64 (updateInterval b - 1)) w))
    false
    (cacheSet cacheTimeoutKey cache.NoBannedValue
       (wrap64 (updateInterval b - 1)) w)
  = Some (inl body, w2) ->
  unmarshalStream body = Some stream ->
  let w' := setHealthy true
              (fold_left applyDeleted (Deleted stream)
                 (fold_left applyNew (New stream) w2)) in
  handleStreamCache fuel b w = Some (None, w') /\
  forall d t,
    In d (Deleted stream) ->
    cacheGet (Value d) (atTime t w') = (EmptyString, Some cache.CacheMiss).
Proof.
  intros Hmiss Hquery Hstream w'. split.
  - rewrite stale_cycle_unfold by assumption. cbv zeta.
    now rewrite Hquery, Hstream.
  - intros d t Hin. unfold cacheGet. apply Get_absent.
    subst w'. simpl. now apply applyDeleted_removes.
Qed.

Lemma deleted_wins_over_new_witness :
  let both := decisionOf "ban" "10.0.0.7" "4h" in
  exists w',
    handleStreamCache 1 (bouncerIn configuration.StreamMode captchaDown)
      (worldWith [Reply StatusOK
                    (inl (BodyStream {| Deleted := [both]; New := [both] |}))])
    = Some (None, w') /\
    cacheGet "10.0.0.7" w' = (EmptyString, Some cache.CacheMiss).
Proof.
  intros both.
  edestruct (deleted_wins_over_new 1
               (bouncerIn configuration.StreamMode captchaDown)
               (worldWith [Reply StatusOK
                  (inl (BodyStream {| Deleted := [both]; New := [both] |}))]))
    as [Hcycle Hmiss];
    [reflexivity | reflexivity | reflexivity |].
  eexists. split; [exact Hcycle|].
  apply (Hmiss both 1000). now left.
Defined.

(** Outside alone mode a query is one call of the HTTP client. *)
Lemma query_once fuel b stringURL isPost w r w' :
  crowdsecMode b <> configuration.AloneMode ->
  crowdsecQuery fuel b stringURL isPost w = Some (r, w') ->
  exists req,
    url req = stringURL /\ trace w' = (trace w ++ [EvDo req])%list.
Proof.
  intros Hmode Hq. destruct fuel as [|fuel]; [discriminate|].
  cbn [crowdsecQuery] in Hq. apply String.eqb_neq in Hmode.
  unfold Do in Hq.
  destruct (pending w) as [|[err|code body] rest];
    rewrite ?Hmode, ?andb_false_r in Hq;
    try destruct (negb (code =? StatusOK)); try destruct body;
    injection Hq as <- <-; eexists; (split; [|reflexivity]);
    now destruct isPost.
Qed.

Lemma calls_snoc evs req : calls (evs ++ [EvDo req])%list = S (calls evs).
Proof.
  unfold calls. rewrite List.filter_app, List.length_app. simpl. lia.
Qed.

(** Left alone, the cycle on that schedule is the cycle. *)
Lemma handleStreamCacheRacing_alone fuel b w :
  handleStreamCacheRacing Some fuel b w = handleStreamCache fuel b w.
Proof. reflexivity. Qed.

(** C5 (as amended). A cycle that finds the sentinel makes no call and
    succeeds.  A cycle that misses it writes the sentinel, with a TTL of the
    update interval minus one second, before it calls the decision source:
    a tick fired between that write and the call, at any second [t] of the
    window, finds the sentinel and does nothing but mark the stream
    healthy.  The entry is there when the cycle ends, whether the query
    succeeded or not, provided no decision of the stream has the sentinel
    key as its value; a second cycle at any second [t] of the window then
    changes nothing, so the calls made over the two cycles are those of the
    first cycle's query: one call outside alone mode, where a query can
    include renewed logins. *)
Theorem sentinel_suppresses_refetch fuel fuel' b w r w2 t :
  - 2 ^ 63 < updateInterval b < 2 ^ 63 ->
  snd (cacheGet cacheTimeoutKey w) = Some cache.CacheMiss ->
  crowdsecQuery fuel b
    (streamRouteURL b (cacheSet cacheTimeoutKey cache.NoBannedValue
                         (updateInterval b - 1) w))
    false
    (cacheSet cacheTimeoutKey cache.NoBannedValue (updateInterval b - 1) w)
  = Some (r, w2) ->
  (forall body stream d,
      r = inl body -> unmarshalStream body = Some stream ->
      In d (New stream ++ Deleted stream) -> Value d <> cacheTimeoutKey) ->
  t < clock w + (updateInterval b - 1) ->
  (forall fuel0 w0,
      snd (cacheGet cacheTimeoutKey w0) = None ->
      handleStreamCache fuel0 b w0 = Some (None, w0)) /\
  handleStreamCacheRacing
    (fun w1 => handleStreamTicker fuel' b (atTime t w1)) fuel b w
  = handleStreamCacheRacing
      (fun w1 => Some (setHealthy true (atTime t w1))) fuel b w /\
  exists e w',
    handleStreamCache fuel b w = Some (e, w') /\
    cacheStore w' !! cacheTimeoutKey
    = Some {| cache.value := cache.NoBannedValue;
              cache.expiry := clock w + (updateInterval b - 1) |} /\
    trace w' = trace w2 /\
    handleStreamCache fuel' b (atTime t w') = Some (None, atTime t w') /\
    (crowdsecMode b <> configuration.AloneMode ->
     calls (trace (atTime t w')) = S (calls (trace w))).
Proof.
  intros Hrange Hmiss Hquery Hkeys Ht.
  split; [intros; now apply fresh_cycle_is_noop|].
  pose proof (proj1 (query_frame fuel) _ _ _ _ _ _ Hquery)
    as (Hstore & Hclock & _ & _).
  simpl in Hstore, Hclock.
  assert (Hsentinel :
    cacheStore w2 !! cacheTimeoutKey
    = Some {| cache.value := cache.NoBannedValue;
              cache.expiry := clock w + (updateInterval b - 1) |}).
  { rewrite Hstore. unfold cache.Set_. apply lookup_insert_eq. }
  assert (Hcalls : crowdsecMode b <> configuration.AloneMode ->
                   calls (trace w2) = S (calls (trace w))).
  { intros Hmode.
    destruct (query_once _ _ _ _ _ _ _ Hmode Hquery) as (req & _ & ->).
    simpl. apply calls_snoc. }
  assert (Hnoop : forall w',
    cacheStore w' !! cacheTimeoutKey
    = Some {| cache.value := cache.NoBannedValue;
              cache.expiry := clock w + (updateInterval b - 1) |} ->
    handleStreamCache fuel' b (atTime t w') = Some (None, atTime t w')).
  { intros w' Hw'. apply fresh_cycle_is_noop.
    unfold cacheGet, cache.Get. simpl. rewrite Hw'. simpl.
    destruct (Z.ltb_spec t (clock w + (updateInterval b - 1)));
      [reflexivity | lia]. }
  split.
  { unfold handleStreamCacheRacing.
    destruct (cacheGet cacheTimeoutKey w) as [v e]. simpl in Hmiss. subst e.
    cbn [negb String.eqb]. cbv zeta.
    replace (negb (String.eqb cache.CacheMiss cache.CacheMiss)) with false
      by reflexivity.
    unfold handleStreamTicker. rewrite Hnoop; [reflexivity|].
    rewrite wrap64_small by lia. unfold cacheSet, cache.Set_. simpl.
    apply lookup_insert_eq. }
  rewrite stale_cycle_unfold by assumption. cbv zeta.
  rewrite wrap64_small by lia. rewrite Hquery.
  destruct r as [body|err]; [|eauto 10].
  destruct (unmarshalStream body) as [stream|] eqn:Hstream; [|eauto 10].
  assert (Hkept :
    cacheStore (setHealthy true
                  (fold_left applyDeleted (Deleted stream)
                     (fold_left applyNew (New stream) w2))) !! cacheTimeoutKey
    = Some {| cache.value := cache.NoBannedValue;
              cache.expiry := clock w + (updateInterval b - 1) |}).
  { simpl. rewrite applyDeleted_other, applyNew_other; [assumption| |];
      intros d Hd; apply (Hkeys body stream d eq_refl Hstream);
      apply in_or_app; auto. }
  assert (Htrace :
    trace (fold_left applyDeleted (Deleted stream)
             (fold_left applyNew (New stream) w2)) = trace w2).
  { destruct (applyDeleted_frame (Deleted stream)
                (fold_left applyNew (New stream) w2)) as (_ & -> & _).
    now destruct (applyNew_frame (New stream) w2) as (_ & -> & _). }
  eexists _, _. split; [reflexivity|].
  split; [exact Hkept|]. split; [exact Htrace|].
  split; [now apply Hnoop|].
  intros Hmode. simpl. rewrite Htrace. now apply Hcalls.
Qed.

Lemma sentinel_suppresses_refetch_witness :
  let b := bouncerIn configuration.StreamMode captchaDown in
  let w := worldWith [Reply StatusOK (inl (BodyStream
             {| Deleted := []; New := [decisionOf "ban" "10.0.0.7" "4h"] |}))] in
  (exists e w',
      handleStreamCacheRacing
        (fun w1 => handleStreamTicker 1 b (atTime 1058 w1)) 1 b w
      = Some (e, w') /\
      calls (trace w') = 1%nat) /\
  exists e w',
    handleStreamCache 1 b w = Some (e, w') /\
    handleStreamCache 1 b (atTime 1058 w') = Some (None, atTime 1058 w') /\
    calls (trace (atTime 1058 w')) = 1%nat.
Proof.
  intros b w.
  edestruct (sentinel_suppresses_refetch 1 1 b w) with (t := 1058)
    as (_ & Hrace & e & w' & Hfirst & _ & _ & Hsecond & Hcalls).
  - simpl. lia.
  - reflexivity.
  - reflexivity.
  - intros body stream d [= <-] [= <-] [<-|[]]. discriminate.
  - simpl. lia.
  - split.
    + rewrite Hrace. eexists _, _. split; reflexivity.
    + exists e, w'. split; [exact Hfirst|]. split; [exact Hsecond|].
      apply Hcalls. discriminate.
Defined.

(** C5 (as stated) fails: the stream of the first cycle has a deleted
    decision whose value is the sentinel key.  The cycle removes its own
    sentinel, and a second cycle one second later, 58 seconds before the
    window ends, fetches the stream again: two calls over the two ticks. *)
Lemma stream_naming_the_sentinel_is_refetched :
  let b := bouncerIn configuration.StreamMode captchaDown in
  let named := decisionOf "ban" cacheTimeoutKey "4h" in
  match handleStreamCache 1 b
          (worldWith
             [Reply StatusOK
                (inl (BodyStream {| Deleted := [named]; New := [] |}));
              Reply StatusOK
                (inl (BodyStream {| Deleted := []; New := [] |}))]) with
  | Some (None, w') =>
      1001 < clock w' + (updateInterval b - 1) /\
      match handleStreamCache 1 b (atTime 1001 w') with
      | Some (None, w'') => calls (trace w'') = 2%nat
      | _ => False
      end
  | _ => False
  end.
Proof. vm_compute. split; reflexivity. Qed.

(** The dispatcher passes every verdict that is neither banned nor
    captcha. *)
Lemma handleRemediation_other remoteIP remediation b req w :
  remediation <> cache.BannedValue ->
  remediation <> cache.CaptchaValue ->
  handleRemediation remoteIP remediation b req w
  = emit EvNext (emit (EvRemediation remoteIP) w).
Proof.
  intros Hban Hcaptcha. unfold handleRemediation.
  apply String.eqb_neq in Hban, Hcaptcha.
  rewrite Hcaptcha. cbn [andb]. now rewrite Hban, Hcaptcha.
Qed.

Lemma handleRemediation_banned remoteIP b req w :
  handleRemediation remoteIP cache.BannedValue b req w
  = emit (EvWriteHeader StatusForbidden) (emit (EvRemediation remoteIP) w).
Proof. reflexivity. Qed.

Lemma valueOfType_unknown type unknown :
  type <> "ban" -> type <> "captcha" -> valueOfType type unknown = unknown.
Proof.
  intros Hban Hcaptcha. unfold valueOfType.
  apply String.eqb_neq in Hban, Hcaptcha. now rewrite Hban, Hcaptcha.
Qed.

(** A request of an enabled bouncer, in any mode but none, whose IP resolves,
    is not trusted and has a live cache entry is dispatched on the cached
    value; no query is made. *)
Lemma ServeHTTP_cache_hit GetRemoteIP fuel b req w remoteIP remediation :
  enabled b = true ->
  crowdsecMode b <> configuration.NoneMode ->
  GetRemoteIP req (serverPoolStrategy b) (customHeader b) = (remoteIP, None) ->
  ip.Contains (ip.Checker_ (clientPoolStrategy b)) remoteIP = (false, None) ->
  cacheGet remoteIP w = (remediation, None) ->
  ServeHTTP GetRemoteIP fuel b req w
  = Some (handleRemediation remoteIP remediation b req w).
Proof.
  intros Hen Hmode Hip Htrust Hhit. unfold ServeHTTP.
  apply String.eqb_neq in Hmode.
  now rewrite Hen, Hip, Htrust, Hmode, Hhit.
Qed.

(** C10. A [new] decision of the stream whose type is neither ban nor
    captcha and whose duration parses is written to the cache with the empty
    string as its value, which is none of the three cache values.  The
    dispatcher passes that value through, so
    until the entry expires every request from the subject is handed to the
    next handler, healthy stream or not.  (The decision is the last one of
    the cycle for its subject.) *)
Theorem unknown_type_whitelists
    GetRemoteIP fuel fuel' b w body stream w2 before d after dur req t h :
  snd (cacheGet cacheTimeoutKey w) = Some cache.CacheMiss ->
  crowdsecQuery fuel b
    (streamRouteURL b (cacheSet cacheTimeoutKey cache.NoBannedValue
                         (wrap64 (updateInterval b - 1)) w))
    false
    (cacheSet cacheTimeoutKey cache.NoBannedValue
       (wrap64 (updateInterval b - 1)) w)
  = Some (inl body, w2) ->
  unmarshalStream body = Some stream ->
  New stream = (before ++ d :: after)%list ->
  Type_ d <> "ban" -> Type_ d <> "captcha" ->
  time.ParseDuration (Duration d) = Some dur ->
  (forall d', In d' after -> Value d' <> Value d) ->
  (forall d', In d' (Deleted stream) -> Value d' <> Value d) ->
  enabled b = true ->
  crowdsecMode b <> configuration.NoneMode ->
  GetRemoteIP req (serverPoolStrategy b) (customHeader b) = (Value d, None) ->
  ip.Contains (ip.Checker_ (clientPoolStrategy b)) (Value d) = (false, None) ->
  t < clock w + time.Seconds dur ->
  (EmptyString <> cache.NoBannedValue /\ EmptyString <> cache.BannedValue /\
   EmptyString <> cache.CaptchaValue) /\
  (forall w0, applyNew w0 d
              = cacheSet (Value d) EmptyString (time.Seconds dur) w0) /\
  (forall w0, handleRemediation (Value d) EmptyString b req w0
              = emit EvNext (emit (EvRemediation (Value d)) w0)) /\
  exists w',
    handleStreamCache fuel b w = Some (None, w') /\
    cacheStore w' !! Value d
    = Some {| cache.value := EmptyString;
              cache.expiry := clock w + time.Seconds dur |} /\
    ServeHTTP GetRemoteIP fuel' b req (setHealthy h (atTime t w'))
    = Some (emit EvNext
              (emit (EvRemediation (Value d)) (setHealthy h (atTime t w')))).
Proof.
  intros Hmiss Hquery Hstream Hnew Hban Hcaptcha Hdur Hafter Hdeleted
         Hen Hmode Hip Htrust Ht.
  assert (Hpass : forall w0,
    handleRemediation (Value d) EmptyString b req w0
    = emit EvNext (emit (EvRemediation (Value d)) w0)).
  { intros w0. now apply handleRemediation_other. }
  split; [repeat split; discriminate|].
  split; [|split; [exact Hpass|]].
  { intros w0. unfold applyNew.
    now rewrite Hdur, valueOfType_unknown by assumption. }
  pose proof (proj1 (query_frame fuel) _ _ _ _ _ _ Hquery)
    as (_ & Hclock & _ & _).
  simpl in Hclock.
  assert (Hentry :
    cacheStore (fold_left applyDeleted (Deleted stream)
                  (fold_left applyNew (New stream) w2)) !! Value d
    = Some {| cache.value := EmptyString;
              cache.expiry := clock w + time.Seconds dur |}).
  { rewrite applyDeleted_other by assumption.
    rewrite Hnew, (applyNew_last before d after w2 dur) by assumption.
    now rewrite valueOfType_unknown, Hclock by assumption. }
  eexists. split; [|split].
  - rewrite stale_cycle_unfold by assumption. cbv zeta.
    rewrite Hquery, Hstream. reflexivity.
  - exact Hentry.
  - rewrite (ServeHTTP_cache_hit GetRemoteIP fuel' b req _ (Value d)
               EmptyString); try assumption; [now rewrite Hpass|].
    unfold cacheGet, cache.Get. cbn [cacheStore clock setHealthy atTime].
    rewrite Hentry. cbn [cache.expiry cache.value].
    destruct (Z.ltb_spec t (clock w + time.Seconds dur)); [reflexivity | lia].
Qed.

Lemma unknown_type_whitelists_witness :
  exists w',
    handleStreamCache 1 (bouncerIn configuration.StreamMode captchaDown)
      (worldWith [Reply StatusOK (inl (BodyStream
         {| Deleted := [];
            New := [decisionOf "throttle" "10.0.0.7" "4h"] |}))])
    = Some (None, w') /\
    cacheStore w' !! "10.0.0.7"
    = Some {| cache.value := EmptyString; cache.expiry := 15400 |} /\
    ServeHTTP peerResolver 0 (bouncerIn configuration.StreamMode captchaDown)
      visitor (setHealthy false (atTime 15399 w'))
    = Some (emit EvNext
              (emit (EvRemediation "10.0.0.7")
                 (setHealthy false (atTime 15399 w')))).
Proof.
  edestruct (unknown_type_whitelists peerResolver 1 0
               (bouncerIn configuration.StreamMode captchaDown)
               (worldWith [Reply StatusOK (inl (BodyStream
                  {| Deleted := [];
                     New := [decisionOf "throttle" "10.0.0.7" "4h"] |}))]))
    with (before := @nil Decision)
         (d := decisionOf "throttle" "10.0.0.7" "4h")
         (after := @nil Decision) (req := visitor) (t := 15399) (h := false)
    as (_ & _ & _ & w' & Hcycle & Hentry & Hserve).
  - reflexivity.
  - reflexivity.
  - reflexivity.
  - reflexivity.
  - discriminate.
  - discriminate.
  - reflexivity.
  - intros d' [].
  - intros d' [].
  - reflexivity.
  - discriminate.
  - reflexivity.
  - reflexivity.
  - vm_compute. reflexivity.
  - exists w'. split; [exact Hcycle|]. split; [exact Hentry | exact Hserve].
Defined.

(** ** Queries: answers and renewed logins *)

Lemma url_newRequest b stringURL isPost w :
  url (newRequest b stringURL isPost w) = stringURL.
Proof. now destruct isPost. Qed.

(** A call answered 200 returns the body, after one call of the client. *)
Lemma query_ok fuel b stringURL isPost w body rest :
  pending w = Reply StatusOK (inl body) :: rest ->
  crowdsecQuery (S fuel) b stringURL isPost w
  = Some (inl body,
          setPending rest (emit (EvDo (newRequest b stringURL isPost w)) w)).
Proof.
  intros Hp. cbn [crowdsecQuery]. unfold Do. rewrite Hp. reflexivity.
Qed.

Lemma callsOf_app u evs evs' :
  callsOf u (evs ++ evs')%list = (callsOf u evs + callsOf u evs')%nat.
Proof. unfold callsOf. now rewrite List.filter_app, List.length_app. Qed.

(** One round of renewal in alone mode: a call answered 401 logs in once
    and, the login granted, starts the original call again as a GET with the
    new key. *)
Lemma renewal_round fuel b stringURL isPost w token rest :
  crowdsecMode b = configuration.AloneMode ->
  token <> EmptyString ->
  pending w = unauthorized :: loginReply token :: rest ->
  exists w2,
    crowdsecQuery (S (S (S fuel))) b stringURL isPost w
    = crowdsecQuery (S (S fuel)) b stringURL false w2 /\
    pending w2 = rest /\ crowdsecKey w2 = token /\
    trace w2 = (trace w ++ [EvDo (newRequest b stringURL isPost w);
                            EvDo (newRequest b (loginURL b) true w)])%list.
Proof.
  intros Hmode Htoken Hp.
  assert (Hlen : (0 <? Z.of_nat (String.length token)) = true).
  { apply Z.ltb_lt. destruct token; [congruence|]. simpl String.length. lia. }
  eexists. split; [|split; [|split]].
  - cbn [crowdsecQuery getToken]. unfold Do at 1. rewrite Hp, Hmode.
    cbn [StatusUnauthorized unauthorized Z.eqb Pos.eqb andb].
    replace (String.eqb configuration.AloneMode configuration.AloneMode)
      with true by reflexivity.
    cbn [andb]. unfold Do at 1. cbn [pending setPending emit].
    cbn [loginReply StatusOK StatusUnauthorized Z.eqb Pos.eqb andb negb
         unmarshalLogin Code Token].
    rewrite Hlen. cbn [andb]. reflexivity.
  - reflexivity.
  - reflexivity.
  - cbn [trace setKey setPending emit]. rewrite <- List.app_assoc.
    reflexivity.
Qed.

Lemma callsOf_one u req :
  callsOf u [EvDo req] = if String.eqb (url req) u then 1%nat else 0%nat.
Proof. unfold callsOf. simpl. now destruct (String.eqb (url req) u). Qed.

Lemma last_cons {A} (a d : A) l : List.last (a :: l) d = List.last l a.
Proof.
  revert a d. induction l as [|x l IH]; intros a d; [reflexivity|].
  change (List.last (a :: x :: l) d) with (List.last (x :: l) d).
  now rewrite !IH.
Qed.

(** With an original request that is not the login itself, the rounds hold
    one login for every token and one more send of the request than
    tokens. *)
Lemma callsOf_renewalCalls b stringURL tokens :
  stringURL <> loginURL b ->
  forall isPost key,
    callsOf (loginURL b) (renewalCalls b stringURL isPost key tokens)
    = length tokens /\
    callsOf stringURL (renewalCalls b stringURL isPost key tokens)
    = S (length tokens).
Proof.
  intros Hurl.
  assert (Hself : String.eqb stringURL stringURL = true)
    by apply String.eqb_refl.
  assert (Hlogin : String.eqb (loginURL b) (loginURL b) = true)
    by apply String.eqb_refl.
  assert (Hne : String.eqb stringURL (loginURL b) = false)
    by now apply String.eqb_neq.
  assert (Hne' : String.eqb (loginURL b) stringURL = false)
    by (apply String.eqb_neq; congruence).
  induction tokens as [|token tokens IH]; intros isPost key.
  - cbn [renewalCalls]. rewrite !callsOf_one.
    destruct isPost; cbn [url]; now rewrite Hself, Hne.
  - cbn [renewalCalls].
    destruct (IH false token) as [IHlogin IHsend].
    change (?x :: ?y :: ?l) with ([x] ++ [y] ++ l)%list.
    rewrite !callsOf_app, !callsOf_one, IHlogin, IHsend.
    destruct isPost; cbn [url length];
      rewrite Hself, Hlogin, Hne, Hne'; split; lia.
Qed.

(** C3 (as amended). In alone mode every 401 is followed by one login and,
    the login granted, by one more attempt of the original call, and that
    attempt is a call like the first: a 401 to it starts the next round.
    The rounds are bounded by the answers of the central API alone: after
    [n] 401s, each followed by a granted login, the call returns the body it
    got at last, holding the last token, and the client has been asked
    exactly this: the original request; then, round by round, the
    credentials under the key held so far and the request again, as a GET
    under the token just granted.  Where the request is not the login
    itself, that is [n] logins and [n + 1] sends of the request. *)
Theorem renewal_rounds_follow_every_401
    fuel b stringURL isPost w tokens body rest :
  crowdsecMode b = configuration.AloneMode ->
  Forall (fun token => token <> EmptyString) tokens ->
  pending w = (renewals tokens ++ Reply StatusOK (inl body) :: rest)%list ->
  (length tokens + 2 <= fuel)%nat ->
  exists w',
    crowdsecQuery fuel b stringURL isPost w = Some (inl body, w') /\
    pending w' = rest /\
    crowdsecKey w' = List.last tokens (crowdsecKey w) /\
    trace w'
    = (trace w
       ++ renewalCalls b stringURL isPost (crowdsecKey w) tokens)%list /\
    (stringURL <> loginURL b ->
     callsOf (loginURL b) (trace w')
     = (callsOf (loginURL b) (trace w) + length tokens)%nat /\
     callsOf stringURL (trace w')
     = (callsOf stringURL (trace w) + length tokens + 1)%nat).
Proof.
  intros Hmode Htokens Hp Hfuel.
  assert (Hrun : exists w',
    crowdsecQuery fuel b stringURL isPost w = Some (inl body, w') /\
    pending w' = rest /\
    crowdsecKey w' = List.last tokens (crowdsecKey w) /\
    trace w'
    = (trace w
       ++ renewalCalls b stringURL isPost (crowdsecKey w) tokens)%list).
  { revert fuel isPost w Hp Hfuel.
    induction Htokens as [|token tokens Htoken _ IH];
      intros fuel isPost w Hp Hfuel.
    - destruct fuel as [|fuel]; [simpl in Hfuel; lia|].
      simpl in Hp. rewrite (query_ok fuel b stringURL isPost w body rest Hp).
      eexists. split; [reflexivity|].
      cbn [pending crowdsecKey trace setPending emit List.last].
      repeat split.
    - destruct fuel as [|[|[|fuel]]]; try (simpl in Hfuel; lia).
      simpl in Hp.
      destruct (renewal_round fuel b stringURL isPost w token _
                  Hmode Htoken Hp)
        as (w2 & -> & Hp2 & Hkey2 & Htrace2).
      destruct (IH (S (S fuel)) false w2 Hp2 ltac:(simpl in Hfuel |- *; lia))
        as (w' & Hq & Hrest & Hkey & Htrace).
      exists w'. split; [exact Hq|]. split; [exact Hrest|].
      rewrite Hkey, Hkey2, Htrace, Htrace2, Hkey2, last_cons.
      split; [reflexivity|].
      rewrite <- List.app_assoc. cbn [renewalCalls app].
      now destruct isPost. }
  destruct Hrun as (w' & Hq & Hrest & Hkey & Htrace).
  exists w'. repeat (split; [assumption|]).
  intros Hurl. rewrite Htrace, !callsOf_app.
  destruct (callsOf_renewalCalls b stringURL tokens Hurl isPost (crowdsecKey w))
    as [-> ->].
  lia.
Qed.

Lemma renewal_rounds_follow_every_401_witness :
  let b := bouncerIn configuration.AloneMode captchaDown in
  exists w',
    crowdsecQuery 4 b (loginURL b) true
      (worldWith [unauthorized; loginReply "token-1";
                  unauthorized; loginReply "token-2";
                  Reply StatusOK (inl BodyNull)])
    = Some (inl BodyNull, w') /\
    crowdsecKey w' = "token-2" /\
    trace w'
    = [EvDo {| method := MethodPost; url := loginURL b;
               headerName := "Authorization"; headerValue := "key";
               data := loginData b |};
       EvDo {| method := MethodPost; url := loginURL b;
               headerName := "Authorization"; headerValue := "key";
               data := loginData b |};
       EvDo {| method := MethodGet; url := loginURL b;
               headerName := "Authorization"; headerValue := "token-1";
               data := EmptyString |};
       EvDo {| method := MethodPost; url := loginURL b;
               headerName := "Authorization"; headerValue := "token-1";
               data := loginData b |};
       EvDo {| method := MethodGet; url := loginURL b;
               headerName := "Authorization"; headerValue := "token-2";
               data := EmptyString |}].
Proof.
  intros b.
  destruct (renewal_rounds_follow_every_401 4 b (loginURL b) true
              (worldWith [unauthorized; loginReply "token-1";
                          unauthorized; loginReply "token-2";
                          Reply StatusOK (inl BodyNull)])
              ["token-1"; "token-2"] BodyNull [])
    as (w' & Hq & _ & Hkey & Htrace & _).
  - reflexivity.
  - repeat constructor; discriminate.
  - reflexivity.
  - simpl. lia.
  - exists w'. split; [exact Hq|]. split; [exact Hkey|].
    rewrite Htrace. reflexivity.
Defined.

(** C3 (as stated) fails: the original call and its retry are both answered
    401, yet the call does not fail; it logs in a second time, sends the
    original request a third time and returns that answer. *)
Lemma second_401_is_renewed_again :
  let b := bouncerIn configuration.AloneMode captchaDown in
  let stringURL :=
    "https://api.crowdsec.net/v2/decisions/stream?startup=false" in
  match crowdsecQuery 4 b stringURL false
          (worldWith [unauthorized; loginReply "token-1";
                      unauthorized; loginReply "token-2";
                      Reply StatusOK (inl BodyNull)]) with
  | Some (inl body, w') =>
      body = BodyNull /\
      callsOf (loginURL b) (trace w') = 2%nat /\
      callsOf stringURL (trace w') = 3%nat
  | _ => False
  end.
Proof. vm_compute. repeat split. Qed.

(** ** LiveLookup: which decision is used, and what becomes of the request *)

Lemma pickDecision_find decisions decision :
  pickDecision decision decisions
  = match List.find isBan decisions with
    | Some d => d
    | None => List.last decisions decision
    end.
Proof.
  revert decision. induction decisions as [|d ds IH]; intros decision;
    [reflexivity|].
  cbn [pickDecision List.find]. unfold isBan at 1.
  destruct (String.eqb (Type_ d) "ban"); [reflexivity|].
  rewrite IH, last_cons. reflexivity.
Qed.

Lemma clamp_min ceiling seconds :
  (if ceiling <? seconds then ceiling else seconds) = Z.min ceiling seconds.
Proof. destruct (Z.ltb_spec ceiling seconds); lia. Qed.

(** The on-demand query in live mode, answered by a non-empty array of
    decisions: the decision the loop stops at gives the duration to parse,
    the value to cache and, clamped, the TTL. *)
Lemma handleNoStreamCache_decisions fuel b remoteIP w ds rest :
  crowdsecMode b = configuration.LiveMode ->
  pending w = Reply StatusOK (inl (BodyDecisions ds)) :: rest ->
  ds <> [] ->
  handleNoStreamCache (S fuel) b remoteIP w
  = let decision := pickDecision zeroDecision ds in
    let w1 := setPending rest
                (emit (EvDo (newRequest b (routeURL b remoteIP) false w)) w) in
    match time.ParseDuration (Duration decision) with
    | None =>
        Some ((cache.NoBannedValue,
               Some ("handleNoStreamCache:parseDuration " +:+
                     durationError (Duration decision))), w1)
    | Some duration =>
        let value := valueOfType (Type_ decision) cache.NoBannedValue in
        Some ((value, Some "handleNoStreamCache:banned"),
              cacheSet remoteIP value
                (Z.min (defaultDecisionTimeout b) (time.Seconds duration)) w1)
    end.
Proof.
  intros Hmode Hp Hds. unfold handleNoStreamCache.
  rewrite (query_ok fuel b _ false w _ rest Hp), Hmode.
  cbn [isNull unmarshalDecisions].
  destruct ds as [|d ds]; [congruence|].
  cbn [length Nat.eqb]. cbv zeta.
  destruct (time.ParseDuration _); [|reflexivity].
  replace (String.eqb configuration.LiveMode configuration.LiveMode)
    with true by reflexivity.
  now rewrite clamp_min.
Qed.

(** The request path in live mode on a cache miss: the remediation the
    on-demand query returns is dispatched, its error is dropped. *)
Lemma ServeHTTP_live_miss GetRemoteIP fuel b req w remoteIP :
  enabled b = true ->
  crowdsecMode b = configuration.LiveMode ->
  GetRemoteIP req (serverPoolStrategy b) (customHeader b) = (remoteIP, None) ->
  ip.Contains (ip.Checker_ (clientPoolStrategy b)) remoteIP = (false, None) ->
  snd (cacheGet remoteIP w) = Some cache.CacheMiss ->
  ServeHTTP GetRemoteIP fuel b req w
  = match handleNoStreamCache fuel b remoteIP w with
    | None => None
    | Some ((remediation, _), w1) =>
        Some (handleRemediation remoteIP remediation b req w1)
    end.
Proof.
  intros Hen Hmode Hip Htrust Hmiss. unfold ServeHTTP.
  rewrite Hen, Hip, Htrust, Hmode.
  destruct (cacheGet remoteIP w) as [v e]. simpl in Hmiss. subst e.
  reflexivity.
Qed.

(** C8 (as amended). In live mode, of a non-empty array of decisions the
    one used for parsing the duration and for the cached value is the first
    decision of type ban when there is one, and otherwise the last decision
    of the array. *)
Theorem live_uses_first_ban_else_last fuel b remoteIP w ds rest :
  crowdsecMode b = configuration.LiveMode ->
  pending w = Reply StatusOK (inl (BodyDecisions ds)) :: rest ->
  ds <> [] ->
  pickDecision zeroDecision ds = firstBanElseLast ds /\
  handleNoStreamCache (S fuel) b remoteIP w
  = let decision := firstBanElseLast ds in
    let w1 := setPending rest
                (emit (EvDo (newRequest b (routeURL b remoteIP) false w)) w) in
    match time.ParseDuration (Duration decision) with
    | None =>
        Some ((cache.NoBannedValue,
               Some ("handleNoStreamCache:parseDuration " +:+
                     durationError (Duration decision))), w1)
    | Some duration =>
        let value := valueOfType (Type_ decision) cache.NoBannedValue in
        Some ((value, Some "handleNoStreamCache:banned"),
              cacheSet remoteIP value
                (Z.min (defaultDecisionTimeout b) (time.Seconds duration)) w1)
    end.
Proof.
  intros Hmode Hp Hds.
  assert (Hpick : pickDecision zeroDecision ds = firstBanElseLast ds)
    by apply pickDecision_find.
  split; [exact Hpick|].
  rewrite (handleNoStreamCache_decisions fuel b remoteIP w ds rest)
    by assumption.
  cbv zeta. now rewrite Hpick.
Qed.

Lemma live_uses_first_ban_else_last_witness :
  let ds := [decisionOf "captcha" "10.0.0.7" "10m";
             decisionOf "ban" "10.0.0.7" "20m";
             decisionOf "ban" "10.0.0.7" "30m"] in
  pickDecision zeroDecision ds = decisionOf "ban" "10.0.0.7" "20m".
Proof.
  intros ds.
  destruct (live_uses_first_ban_else_last 0
              (bouncerIn configuration.LiveMode captchaDown) "10.0.0.7"
              (worldWith [Reply StatusOK (inl (BodyDecisions ds))]) ds [])
    as [Hpick _].
  - reflexivity.
  - reflexivity.
  - discriminate.
  - exact Hpick.
Defined.

(** C8 (as stated) fails: with no decision of type ban in the array, the
    decision used is the last one, not the first.  Here the first decision
    is a captcha for ten minutes and the last a throttle for twenty; the
    cache gets the value none for 1200 seconds. *)
Lemma first_decision_is_not_used :
  let ds := [decisionOf "captcha" "10.0.0.7" "10m";
             decisionOf "throttle" "10.0.0.7" "20m"] in
  firstBanElseFirst ds = decisionOf "captcha" "10.0.0.7" "10m" /\
  pickDecision zeroDecision ds = decisionOf "throttle" "10.0.0.7" "20m" /\
  pickDecision zeroDecision ds <> firstBanElseFirst ds /\
  match handleNoStreamCache 1 (bouncerIn configuration.LiveMode captchaUp)
          "10.0.0.7" (worldWith [Reply StatusOK (inl (BodyDecisions ds))]) with
  | Some ((value, _), w') =>
      value = cache.NoBannedValue /\
      cacheStore w' !! "10.0.0.7"
      = Some {| cache.value := cache.NoBannedValue; cache.expiry := 2200 |}
  | None => False
  end.
Proof.
  intros ds. split; [reflexivity|]. split; [reflexivity|].
  split; [discriminate|]. vm_compute. split; reflexivity.
Qed.

(** C9 (what the code does). In live mode, when the duration of the
    decision used does not parse, [handleNoStreamCache] returns the value
    none together with the error, and [ServeHTTP], which drops the error,
    dispatches none: the request is handed to the next handler and nothing
    is cached.  The request is allowed, not denied. *)
Theorem unparsable_duration_is_allowed
    GetRemoteIP fuel b req w remoteIP ds rest :
  enabled b = true ->
  crowdsecMode b = configuration.LiveMode ->
  GetRemoteIP req (serverPoolStrategy b) (customHeader b) = (remoteIP, None) ->
  ip.Contains (ip.Checker_ (clientPoolStrategy b)) remoteIP = (false, None) ->
  snd (cacheGet remoteIP w) = Some cache.CacheMiss ->
  pending w = Reply StatusOK (inl (BodyDecisions ds)) :: rest ->
  ds <> [] ->
  time.ParseDuration (Duration (pickDecision zeroDecision ds)) = None ->
  let w1 := setPending rest
              (emit (EvDo (newRequest b (routeURL b remoteIP) false w)) w) in
  handleNoStreamCache (S fuel) b remoteIP w
  = Some ((cache.NoBannedValue,
           Some ("handleNoStreamCache:parseDuration " +:+
                 durationError (Duration (pickDecision zeroDecision ds)))),
          w1) /\
  ServeHTTP GetRemoteIP (S fuel) b req w
  = Some (emit EvNext (emit (EvRemediation remoteIP) w1)) /\
  cacheStore w1 = cacheStore w.
Proof.
  intros Hen Hmode Hip Htrust Hmiss Hp Hds Hdur w1.
  assert (Hquery :
    handleNoStreamCache (S fuel) b remoteIP w
    = Some ((cache.NoBannedValue,
             Some ("handleNoStreamCache:parseDuration " +:+
                   durationError (Duration (pickDecision zeroDecision ds)))),
            w1)).
  { rewrite (handleNoStreamCache_decisions fuel b remoteIP w ds rest)
      by assumption.
    cbv zeta. now rewrite Hdur. }
  split; [exact Hquery|]. split; [|reflexivity].
  rewrite (ServeHTTP_live_miss GetRemoteIP (S fuel) b req w remoteIP)
    by assumption.
  rewrite Hquery. reflexivity.
Qed.

Lemma unparsable_duration_is_allowed_witness :
  let b := bouncerIn configuration.LiveMode captchaDown in
  let w := worldWith [Reply StatusOK (inl (BodyDecisions
                        [decisionOf "ban" "10.0.0.7" "forever"]))] in
  ServeHTTP peerResolver 1 b visitor w
  = Some (emit EvNext
            (emit (EvRemediation "10.0.0.7")
               (setPending []
                  (emit (EvDo (newRequest b (routeURL b "10.0.0.7") false w))
                     w)))).
Proof.
  intros b w.
  apply (unparsable_duration_is_allowed peerResolver 0 b visitor w "10.0.0.7"
           [decisionOf "ban" "10.0.0.7" "forever"] []);
    try reflexivity.
  discriminate.
Defined.

(** C2 (as amended). In live mode, a request of an enabled bouncer whose IP
    resolves, is not trusted and misses the cache, and for which the
    decision source returns a non-empty array whose decision in use has a
    duration that parses, is dispatched on the value written to the cache.
    When that decision is of type ban the value is banned: this request is
    answered 403, and so is every request for the same IP before the entry
    expires (the duration clamped to the default decision timeout), from the
    cache and with no call to the decision source.  When it is of type
    captcha the request goes the way of a captcha verdict. *)
Theorem live_decision_is_dispatched_by_value
    GetRemoteIP fuel fuel' b req req' w remoteIP ds rest duration t :
  enabled b = true ->
  crowdsecMode b = configuration.LiveMode ->
  GetRemoteIP req (serverPoolStrategy b) (customHeader b) = (remoteIP, None) ->
  GetRemoteIP req' (serverPoolStrategy b) (customHeader b) = (remoteIP, None) ->
  ip.Contains (ip.Checker_ (clientPoolStrategy b)) remoteIP = (false, None) ->
  snd (cacheGet remoteIP w) = Some cache.CacheMiss ->
  pending w = Reply StatusOK (inl (BodyDecisions ds)) :: rest ->
  ds <> [] ->
  time.ParseDuration (Duration (pickDecision zeroDecision ds))
  = Some duration ->
  t < clock w + Z.min (defaultDecisionTimeout b) (time.Seconds duration) ->
  let w1 := setPending rest
              (emit (EvDo (newRequest b (routeURL b remoteIP) false w)) w) in
  let ttl := Z.min (defaultDecisionTimeout b) (time.Seconds duration) in
  (Type_ (pickDecision zeroDecision ds) = "ban" ->
   let w2 := emit (EvWriteHeader StatusForbidden)
               (emit (EvRemediation remoteIP)
                  (cacheSet remoteIP cache.BannedValue ttl w1)) in
   ServeHTTP GetRemoteIP (S fuel) b req w = Some w2 /\
   ServeHTTP GetRemoteIP fuel' b req' (atTime t w2)
   = Some (emit (EvWriteHeader StatusForbidden)
             (emit (EvRemediation remoteIP) (atTime t w2)))) /\
  (Type_ (pickDecision zeroDecision ds) = "captcha" ->
   ServeHTTP GetRemoteIP (S fuel) b req w
   = Some (handleRemediation remoteIP cache.CaptchaValue b req
             (cacheSet remoteIP cache.CaptchaValue ttl w1))).
Proof.
  intros Hen Hmode Hip Hip' Htrust Hmiss Hp Hds Hdur Ht w1 ttl.
  assert (Hserve :
    ServeHTTP GetRemoteIP (S fuel) b req w
    = let value := valueOfType (Type_ (pickDecision zeroDecision ds))
                     cache.NoBannedValue in
      Some (handleRemediation remoteIP value b req
              (cacheSet remoteIP value ttl w1))).
  { rewrite (ServeHTTP_live_miss GetRemoteIP (S fuel) b req w remoteIP)
      by assumption.
    rewrite (handleNoStreamCache_decisions fuel b remoteIP w ds rest)
      by assumption.
    cbv zeta. now rewrite Hdur. }
  split.
  - intros Hban w2. rewrite Hserve, Hban. cbv zeta.
    change (valueOfType "ban" cache.NoBannedValue) with cache.BannedValue.
    rewrite handleRemediation_banned. split; [reflexivity|].
    rewrite (ServeHTTP_cache_hit GetRemoteIP fuel' b req' (atTime t w2)
               remoteIP cache.BannedValue); try assumption.
    + now rewrite handleRemediation_banned.
    + rewrite Hmode. discriminate.
    + unfold cacheGet. subst w2. cbn [cacheStore clock atTime emit cacheSet
                                      setCache setPending w1].
      now apply Get_Set_eq.
  - intros Hcaptcha. rewrite Hserve, Hcaptcha. reflexivity.
Qed.

Lemma live_decision_is_dispatched_by_value_witness :
  let b := bouncerIn configuration.LiveMode captchaDown in
  let w := worldWith [Reply StatusOK (inl (BodyDecisions
                        [decisionOf "ban" "10.0.0.7" "4h"]))] in
  let w2 := emit (EvWriteHeader StatusForbidden)
              (emit (EvRemediation "10.0.0.7")
                 (cacheSet "10.0.0.7" cache.BannedValue 3600
                    (setPending []
                       (emit (EvDo (newRequest b (routeURL b "10.0.0.7")
                                      false w)) w)))) in
  ServeHTTP peerResolver 1 b visitor w = Some w2 /\
  ServeHTTP peerResolver 0 b returningVisitor (atTime 4599 w2)
  = Some (emit (EvWriteHeader StatusForbidden)
            (emit (EvRemediation "10.0.0.7") (atTime 4599 w2))).
Proof.
  intros b w w2.
  apply (live_decision_is_dispatched_by_value peerResolver 0 0 b visitor
           returningVisitor w
           "10.0.0.7" [decisionOf "ban" "10.0.0.7" "4h"] []
           (4 * time.Hour) 4599);
    try reflexivity.
  discriminate.
Defined.

(** C2 (as stated) fails: the decision source returns one decision, of type
    captcha, for a visitor who holds a verified challenge cookie; captcha is
    cached and the request is handed to the next handler. *)
Lemma captcha_decision_is_not_denied :
  let b := bouncerIn configuration.LiveMode captchaUp in
  let w := worldWith [Reply StatusOK (inl (BodyDecisions
                        [decisionOf "captcha" "10.0.0.7" "4h"]))] in
  match ServeHTTP peerResolver 1 b returningVisitor w with
  | Some w' =>
      trace w' = [EvDo (newRequest b (routeURL b "10.0.0.7") false w);
                  EvRemediation "10.0.0.7"; EvNext] /\
      cacheStore w' !! "10.0.0.7"
      = Some {| cache.value := cache.CaptchaValue; cache.expiry := 4600 |}
  | None => False
  end.
Proof. vm_compute. split; reflexivity. Qed.

(** * Further properties of the code *)

(** ** Traces *)

Lemma emitAll_app evs evs' w :
  emitAll (evs ++ evs')%list w = emitAll evs' (emitAll evs w).
Proof. unfold emitAll. apply fold_left_app. Qed.

Lemma emitAll_frame evs w :
  trace (emitAll evs w) = (trace w ++ evs)%list /\
  cacheStore (emitAll evs w) = cacheStore w /\
  clock (emitAll evs w) = clock w /\
  pending (emitAll evs w) = pending w /\
  crowdsecKey (emitAll evs w) = crowdsecKey w /\
  isStartup (emitAll evs w) = isStartup w /\
  isCrowdsecStreamHealthy (emitAll evs w) = isCrowdsecStreamHealthy w.
Proof.
  revert w. induction evs as [|ev evs IH]; intros w.
  - simpl. rewrite List.app_nil_r. tauto.
  - change (emitAll (ev :: evs) w) with (emitAll evs (emit ev w)).
    destruct (IH (emit ev w)) as (-> & -> & -> & -> & -> & -> & ->).
    simpl. rewrite <- List.app_assoc. tauto.
Qed.

Lemma emit_inj ev ev' w : emit ev w = emit ev' w -> ev = ev'.
Proof.
  intros H. apply (f_equal trace) in H. simpl in H.
  apply List.app_inv_head in H. congruence.
Qed.

Lemma responses_app evs evs' :
  responses (evs ++ evs')%list = (responses evs + responses evs')%nat.
Proof. unfold responses. now rewrite List.filter_app, List.length_app. Qed.

Lemma calls_app evs evs' :
  calls (evs ++ evs')%list = (calls evs + calls evs')%nat.
Proof. unfold calls. now rewrite List.filter_app, List.length_app. Qed.

Lemma responses_of_calls evs :
  Forall (fun ev => isDo ev = true) evs -> responses evs = 0%nat.
Proof.
  induction 1 as [|ev evs Hev _ IH]; [reflexivity|].
  destruct ev; try discriminate. exact IH.
Qed.

(** ** The dispatcher *)

(** The dispatcher answers every request once: with 403, with the challenge
    page or by calling the next handler, after noting its entry. *)
Lemma handleRemediation_outcome remoteIP remediation b req w :
  exists ev,
    handleRemediation remoteIP remediation b req w
    = emitAll [EvRemediation remoteIP; ev] w /\
    (ev = EvWriteHeader StatusForbidden \/ ev = EvChallenge remoteIP \/
     ev = EvNext).
Proof.
  unfold handleRemediation.
  destruct (String.eqb _ cache.BannedValue); [eauto|].
  destruct (String.eqb _ cache.CaptchaValue && _); eauto.
Qed.

(** X7. The dispatcher writes 403 exactly for the verdict banned and for the
    verdict captcha under an invalid challenge provider with fallback ban;
    it serves the challenge page exactly for the verdict captcha that is not
    so overridden, to a request without a verified cookie and for a path
    other than the favicon; in every other case, any unknown verdict
    included, it calls the next handler. *)
Theorem dispatcher_outcomes remoteIP remediation b req w :
  let overridden :=
    remediation = cache.CaptchaValue /\
    captcha.Valid (captchaClient b) = false /\
    captcha.FallbackRemediation (captchaClient b) = "ban" in
  let challenged :=
    remediation = cache.CaptchaValue /\ ~ overridden /\
    captcha.CheckCookie (captchaClient b) req = false /\
    URLPath req <> "/favicon.ico" in
  let entered := emit (EvRemediation remoteIP) w in
  (handleRemediation remoteIP remediation b req w
   = emit (EvWriteHeader StatusForbidden) entered
   <-> remediation = cache.BannedValue \/ overridden) /\
  (handleRemediation remoteIP remediation b req w
   = emit (EvChallenge remoteIP) entered
   <-> challenged) /\
  (handleRemediation remoteIP remediation b req w = emit EvNext entered
   <-> ~ (remediation = cache.BannedValue \/ overridden) /\ ~ challenged).
Proof.
  intros overridden challenged entered.
  subst overridden challenged entered. unfold handleRemediation.
  destruct (String.eqb remediation cache.CaptchaValue) eqn:Ec;
    destruct (String.eqb remediation cache.BannedValue) eqn:Eb;
    destruct (captcha.Valid (captchaClient b)) eqn:Hvalid;
    destruct (String.eqb (captcha.FallbackRemediation (captchaClient b))
                "ban") eqn:Ef;
    destruct (captcha.CheckCookie (captchaClient b) req) eqn:Hcookie;
    destruct (String.eqb (URLPath req) "/favicon.ico") eqn:Ep;
    repeat first [rewrite Ec | rewrite Eb | progress cbn [andb negb]];
    change (String.eqb cache.BannedValue cache.BannedValue) with true;
    cbv iota;
    first [apply String.eqb_eq in Ec | apply String.eqb_neq in Ec];
    first [apply String.eqb_eq in Eb | apply String.eqb_neq in Eb];
    first [apply String.eqb_eq in Ef | apply String.eqb_neq in Ef];
    first [apply String.eqb_eq in Ep | apply String.eqb_neq in Ep];
    try (exfalso; subst remediation; discriminate);
    (split; [|split]); split; intros H;
    try reflexivity;
    try (apply emit_inj in H; discriminate);
    try (intuition (first [congruence | discriminate])).
Qed.

(** ** What a request can do to the world *)

(** Queries and logins add calls of the HTTP client to the trace and
    nothing else. *)
Lemma query_trace fuel :
  (forall b stringURL isPost w r w',
      crowdsecQuery fuel b stringURL isPost w = Some (r, w') ->
      exists evs,
        trace w' = (trace w ++ EvDo (newRequest b stringURL isPost w) :: evs)%list
        /\ Forall (fun ev => isDo ev = true) evs) /\
  (forall b w e w',
      getToken fuel b w = Some (e, w') ->
      exists evs,
        trace w' = (trace w ++ evs)%list /\
        Forall (fun ev => isDo ev = true) evs).
Proof.
  induction fuel as [|fuel [IHq IHt]]; [split; intros; discriminate|].
  split.
  - intros b stringURL isPost w r w' H. cbn [crowdsecQuery] in H.
    set (req := newRequest b stringURL isPost w) in *.
    destruct (Do req w) as [res w1] eqn:HDo.
    assert (Hw1 : trace w1 = (trace w ++ [EvDo req])%list).
    { unfold Do in HDo. destruct (pending w); injection HDo as <- <-;
        reflexivity. }
    assert (Hone : forall w2 evs,
      trace w2 = (trace w1 ++ evs)%list ->
      trace w2 = (trace w ++ EvDo req :: evs)%list).
    { intros w2 evs ->. rewrite Hw1, <- List.app_assoc. reflexivity. }
    destruct res as [err|code body].
    + injection H as <- <-. exists []. split; [exact Hw1 | constructor].
    + destruct ((code =? StatusUnauthorized) && _).
      * destruct (getToken fuel b w1) as [[[errToken|] w2]|] eqn:Ht;
          [| |discriminate].
        -- injection H as <- <-. apply IHt in Ht.
           destruct Ht as (evs & Ht & Hall). exists evs.
           split; [now apply Hone | exact Hall].
        -- apply IHt in Ht. apply IHq in H.
           destruct Ht as (evs & Ht & Hall), H as (evs' & H & Hall').
           exists (evs ++ EvDo (newRequest b stringURL false w2) :: evs')%list.
           split.
           ++ apply Hone. rewrite H, Ht, <- List.app_assoc. reflexivity.
           ++ apply Forall_app. split; [exact Hall|].
              constructor; [reflexivity | exact Hall'].
      * exists []. split; [|constructor].
        destruct (negb (code =? StatusOK)); [|destruct body];
          injection H as <- <-; exact Hw1.
  - intros b w e w' H. cbn [getToken] in H.
    destruct (crowdsecQuery fuel b (loginURL b) true w)
      as [[[body|err] w1]|] eqn:Hq; [| |discriminate].
    + apply IHq in Hq. destruct Hq as (evs & Hq & Hall).
      exists (EvDo (newRequest b (loginURL b) true w) :: evs).
      split; [|constructor; [reflexivity | exact Hall]].
      destruct (unmarshalLogin body) as [login|].
      * destruct ((Code login =? 200) && _); injection H as <- <-; exact Hq.
      * injection H as <- <-. exact Hq.
    + injection H as <- <-. apply IHq in Hq.
      destruct Hq as (evs & Hq & Hall).
      exists (EvDo (newRequest b (loginURL b) true w) :: evs).
      split; [exact Hq | constructor; [reflexivity | exact Hall]].
Qed.

(** The on-demand query returns whenever the query does, and adds only calls
    of the HTTP client to the trace. *)
Lemma handleNoStreamCache_trace fuel b remoteIP w r w1 :
  crowdsecQuery fuel b (routeURL b remoteIP) false w = Some (r, w1) ->
  exists r' w1' evs,
    handleNoStreamCache fuel b remoteIP w = Some (r', w1') /\
    trace w1' = (trace w ++ evs)%list /\
    Forall (fun ev => isDo ev = true) evs.
Proof.
  intros Hq. unfold handleNoStreamCache.
  rewrite Hq.
  destruct (proj1 (query_trace fuel) _ _ _ _ _ _ Hq) as (evs & Htrace & Hall).
  assert (Hevs : Forall (fun ev => isDo ev = true)
                   (EvDo (newRequest b (routeURL b remoteIP) false w) :: evs))
    by (constructor; [reflexivity | exact Hall]).
  destruct r as [body|err]; [|eauto 10].
  destruct (isNull body).
  { destruct (String.eqb (crowdsecMode b) configuration.LiveMode); eauto 10. }
  destruct (unmarshalDecisions body) as [decisions|]; [|eauto 10].
  destruct (length decisions =? 0)%nat.
  { destruct (String.eqb (crowdsecMode b) configuration.LiveMode); eauto 10. }
  destruct (time.ParseDuration _); [|eauto 10].
  destruct (String.eqb (crowdsecMode b) configuration.LiveMode); eauto 10.
Qed.

(** X1. A request whose client address cannot be resolved, or whose address
    the trusted-client checker fails on, is answered 403 by an enabled
    bouncer and nothing else happens: no cache access, no query, whatever the
    mode and even if the checker reported the address as trusted. *)
Theorem unresolved_client_is_denied GetRemoteIP fuel b req w :
  enabled b = true ->
  (exists remoteIP err,
      GetRemoteIP req (serverPoolStrategy b) (customHeader b)
      = (remoteIP, Some err)) \/
  (exists remoteIP isTrusted err,
      GetRemoteIP req (serverPoolStrategy b) (customHeader b)
      = (remoteIP, None) /\
      ip.Contains (ip.Checker_ (clientPoolStrategy b)) remoteIP
      = (isTrusted, Some err)) ->
  ServeHTTP GetRemoteIP fuel b req w
  = Some (emit (EvWriteHeader StatusForbidden) w).
Proof.
  intros Hen [(remoteIP & err & Hip) | (remoteIP & t & err & Hip & Hc)];
    unfold ServeHTTP; rewrite Hen, Hip; [reflexivity|].
  rewrite Hc. now destruct t.
Qed.

Lemma unresolved_client_is_denied_witness :
  let resolver := fun (req : Request) (_ : ip.PoolStrategy) (_ : string) =>
                    (EmptyString, Some "no valid IP in the forwarded header") in
  ServeHTTP resolver 0 (bouncerIn configuration.LiveMode captchaDown) visitor
    (worldWith [])
  = Some (emit (EvWriteHeader StatusForbidden) (worldWith [])).
Proof.
  intros resolver.
  apply (unresolved_client_is_denied resolver 0
           (bouncerIn configuration.LiveMode captchaDown) visitor
           (worldWith [])); [reflexivity|].
  left. exists EmptyString, "no valid IP in the forwarded header".
  reflexivity.
Defined.

(** X2. A request is answered exactly once: whatever the configuration and
    the cache, once the query about the client's address has returned,
    whatever it returned, [ServeHTTP] returns and its effects hold one
    response (the next handler, a status line or the challenge page), and
    the only status it ever writes is 403. *)
Theorem every_request_is_answered_once GetRemoteIP fuel b req w q w0 :
  crowdsecQuery fuel b
    (routeURL b
       (fst (GetRemoteIP req (serverPoolStrategy b) (customHeader b))))
    false w
  = Some (q, w0) ->
  exists w' evs,
    ServeHTTP GetRemoteIP fuel b req w = Some w' /\
    trace w' = (trace w ++ evs)%list /\
    responses evs = 1%nat /\
    forall status, In (EvWriteHeader status) evs -> status = StatusForbidden.
Proof.
  intros Hq.
  assert (Hone : forall ev,
    ev = EvWriteHeader StatusForbidden \/ ev = EvNext ->
    exists w' evs,
      Some (emit ev w) = Some w' /\
      trace w' = (trace w ++ evs)%list /\
      responses evs = 1%nat /\
      forall status, In (EvWriteHeader status) evs -> status = StatusForbidden).
  { intros ev Hev. exists (emit ev w), [ev]. split; [reflexivity|].
    split; [reflexivity|].
    destruct Hev as [-> | ->]; (split; [reflexivity|]);
      intros status [[= <-]|[]]; reflexivity. }
  assert (Hdispatch : forall remoteIP remediation w1 evs1,
    trace w1 = (trace w ++ evs1)%list ->
    Forall (fun ev => isDo ev = true) evs1 ->
    exists w' evs,
      Some (handleRemediation remoteIP remediation b req w1) = Some w' /\
      trace w' = (trace w ++ evs)%list /\
      responses evs = 1%nat /\
      forall status, In (EvWriteHeader status) evs -> status = StatusForbidden).
  { intros remoteIP remediation w1 evs1 Hw1 Hall.
    destruct (handleRemediation_outcome remoteIP remediation b req w1)
      as (ev & -> & Hev).
    eexists _, (evs1 ++ [EvRemediation remoteIP; ev])%list.
    split; [reflexivity|].
    destruct (emitAll_frame [EvRemediation remoteIP; ev] w1) as (-> & _).
    rewrite Hw1, <- List.app_assoc. split; [reflexivity|].
    rewrite responses_app, (responses_of_calls evs1 Hall).
    split.
    - destruct Hev as [-> | [-> | ->]]; reflexivity.
    - intros status Hin. apply in_app_or in Hin.
      destruct Hin as [Hin | [Hin | [Hin | []]]].
      + apply (proj1 (List.Forall_forall _ _) Hall) in Hin. discriminate.
      + discriminate.
      + destruct Hev as [-> | [-> | ->]]; congruence. }
  unfold ServeHTTP.
  destruct (enabled b); [|apply Hone; auto].
  cbn [negb].
  destruct (GetRemoteIP req _ _) as [remoteIP [err|]]; [apply Hone; auto|].
  cbn [fst] in Hq.
  destruct (ip.Contains _ remoteIP) as [[|] [err|]]; try (apply Hone; auto).
  assert (Hmiss :
    exists w' evs,
      (if String.eqb (crowdsecMode b) configuration.StreamMode
          || String.eqb (crowdsecMode b) configuration.AloneMode
       then
         if isCrowdsecStreamHealthy w then Some (emit EvNext w)
         else Some (emit (EvWriteHeader StatusForbidden) w)
       else
         match handleNoStreamCache fuel b remoteIP w with
         | None => None
         | Some ((remediation, _), w1) =>
             Some (handleRemediation remoteIP remediation b req w1)
         end) = Some w' /\
      trace w' = (trace w ++ evs)%list /\
      responses evs = 1%nat /\
      forall status, In (EvWriteHeader status) evs -> status = StatusForbidden).
  { destruct (String.eqb (crowdsecMode b) configuration.StreamMode
              || String.eqb (crowdsecMode b) configuration.AloneMode).
    - destruct (isCrowdsecStreamHealthy w); apply Hone; auto.
    - destruct (handleNoStreamCache_trace fuel b remoteIP w q w0 Hq)
        as ([remediation e] & w1 & evs1 & -> & Hw1 & Hall).
      now apply (Hdispatch remoteIP remediation w1 evs1). }
  cbv zeta.
  destruct (negb (String.eqb (crowdsecMode b) configuration.NoneMode));
    [|exact Hmiss].
  destruct (cacheGet remoteIP w) as [remediation [errString|]].
  - destruct (negb (String.eqb errString cache.CacheMiss));
      [apply Hone; auto | exact Hmiss].
  - apply (Hdispatch remoteIP remediation w []); [|constructor].
    now rewrite List.app_nil_r.
Qed.

Lemma every_request_is_answered_once_witness :
  exists w' evs,
    ServeHTTP peerResolver 3 (bouncerIn configuration.LiveMode captchaUp)
      visitor
      (worldWith [Reply StatusOK (inl (BodyDecisions
                    [decisionOf "captcha" "10.0.0.7" "4h"]))])
    = Some w' /\
    trace w' = evs /\ responses evs = 1%nat.
Proof.
  edestruct (every_request_is_answered_once peerResolver 3
               (bouncerIn configuration.LiveMode captchaUp) visitor
               (worldWith [Reply StatusOK (inl (BodyDecisions
                             [decisionOf "captcha" "10.0.0.7" "4h"]))]))
    as (w' & evs & Hserve & Htrace & Hone & _).
  - reflexivity.
  - exists w', evs. split; [exact Hserve|]. split; [exact Htrace | exact Hone].
Defined.

(** X3. In stream and alone mode the request path only reads: whatever the
    request and the state, [ServeHTTP] returns without a call to the
    decision source and leaves the cache, the key and the health of the
    stream as they are; it needs no fuel. *)
Theorem stream_request_path_is_read_only GetRemoteIP fuel b req w :
  crowdsecMode b = configuration.StreamMode \/
  crowdsecMode b = configuration.AloneMode ->
  exists evs,
    ServeHTTP GetRemoteIP fuel b req w = Some (emitAll evs w) /\
    calls evs = 0%nat.
Proof.
  intros Hmode.
  assert (Hstream :
    String.eqb (crowdsecMode b) configuration.StreamMode
    || String.eqb (crowdsecMode b) configuration.AloneMode = true)
    by (destruct Hmode as [-> | ->]; reflexivity).
  assert (Hone : forall ev,
    isDo ev = false ->
    exists evs, Some (emit ev w) = Some (emitAll evs w) /\ calls evs = 0%nat).
  { intros ev Hev. exists [ev]. split; [reflexivity|].
    unfold calls. simpl. now rewrite Hev. }
  unfold ServeHTTP. rewrite Hstream.
  destruct (enabled b); [|now apply Hone].
  cbn [negb].
  destruct (GetRemoteIP req _ _) as [remoteIP [err|]]; [now apply Hone|].
  destruct (ip.Contains _ remoteIP) as [[|] [err|]]; try now apply Hone.
  cbv zeta.
  assert (Hmiss :
    exists evs,
      (if isCrowdsecStreamHealthy w then Some (emit EvNext w)
       else Some (emit (EvWriteHeader StatusForbidden) w))
      = Some (emitAll evs w) /\ calls evs = 0%nat)
    by (destruct (isCrowdsecStreamHealthy w); now apply Hone).
  destruct (negb (String.eqb (crowdsecMode b) configuration.NoneMode));
    [|exact Hmiss].
  destruct (cacheGet remoteIP w) as [remediation [errString|]].
  - destruct (negb (String.eqb errString cache.CacheMiss));
      [now apply Hone | exact Hmiss].
  - destruct (handleRemediation_outcome remoteIP remediation b req w)
      as (ev & -> & Hev).
    eexists. split; [reflexivity|].
    destruct Hev as [-> | [-> | ->]]; reflexivity.
Qed.

Lemma stream_request_path_is_read_only_witness :
  exists evs,
    ServeHTTP peerResolver 0 (bouncerIn configuration.AloneMode captchaUp)
      visitor (cacheSet "10.0.0.7" cache.CaptchaValue 60 (worldWith []))
    = Some (emitAll evs
              (cacheSet "10.0.0.7" cache.CaptchaValue 60 (worldWith []))) /\
    calls evs = 0%nat.
Proof.
  apply (stream_request_path_is_read_only peerResolver 0
           (bouncerIn configuration.AloneMode captchaUp) visitor
           (cacheSet "10.0.0.7" cache.CaptchaValue 60 (worldWith []))).
  right. reflexivity.
Defined.

(** Outside alone mode a query returns after its one call, with any
    positive fuel. *)
Lemma query_once_returns fuel b stringURL isPost w :
  crowdsecMode b <> configuration.AloneMode ->
  exists r,
    crowdsecQuery (S fuel) b stringURL isPost w
    = Some (r, snd (Do (newRequest b stringURL isPost w) w)).
Proof.
  intros Hmode. cbn [crowdsecQuery]. apply String.eqb_neq in Hmode.
  destruct (Do _ w) as [[err|code body] w1]; [eauto|].
  rewrite Hmode, andb_false_r.
  destruct (negb (code =? StatusOK)); [eauto|]. destruct body; eauto.
Qed.

Lemma Do_effect req w :
  trace (snd (Do req w)) = (trace w ++ [EvDo req])%list /\
  cacheStore (snd (Do req w)) = cacheStore w /\
  clock (snd (Do req w)) = clock w /\
  pending (snd (Do req w)) = List.tl (pending w).
Proof.
  unfold Do. destruct (pending w) eqn:Hp; simpl; rewrite ?Hp; simpl; tauto.
Qed.

(** Outside live mode the on-demand query returns the value none, whatever
    the decision source answered, and writes nothing to the cache. *)
Lemma handleNoStreamCache_not_live fuel b remoteIP w r w1 :
  crowdsecMode b <> configuration.LiveMode ->
  crowdsecQuery fuel b (routeURL b remoteIP) false w = Some (r, w1) ->
  exists err,
    handleNoStreamCache fuel b remoteIP w
    = Some ((cache.NoBannedValue, err), w1).
Proof.
  intros Hmode Hq. unfold handleNoStreamCache. rewrite Hq.
  apply String.eqb_neq in Hmode. rewrite Hmode.
  destruct r as [body|err]; [|eauto].
  destruct (isNull body); [eauto|].
  destruct (unmarshalDecisions body) as [decisions|]; [|eauto].
  destruct (length decisions =? 0)%nat; [eauto|].
  destruct (time.ParseDuration _); eauto.
Qed.

(** X4. In none mode the bouncer still asks the decision source about every
    resolved, untrusted request, with one call, but it neither reads nor
    writes the cache: once that query has returned, whatever the answer, a
    ban included, the request is handed to the next handler. *)
Theorem none_mode_never_denies GetRemoteIP fuel b req w remoteIP r w1 :
  enabled b = true ->
  crowdsecMode b = configuration.NoneMode ->
  GetRemoteIP req (serverPoolStrategy b) (customHeader b) = (remoteIP, None) ->
  ip.Contains (ip.Checker_ (clientPoolStrategy b)) remoteIP = (false, None) ->
  crowdsecQuery (S fuel) b (routeURL b remoteIP) false w = Some (r, w1) ->
  exists w',
    ServeHTTP GetRemoteIP (S fuel) b req w = Some w' /\
    trace w'
    = (trace w ++ [EvDo (newRequest b (routeURL b remoteIP) false w);
                   EvRemediation remoteIP; EvNext])%list /\
    cacheStore w' = cacheStore w.
Proof.
  intros Hen Hmode Hip Htrust Hq.
  assert (Hw1 : w1 = snd (Do (newRequest b (routeURL b remoteIP) false w) w)).
  { destruct (query_once_returns fuel b (routeURL b remoteIP) false w)
      as (r' & Hq'); [rewrite Hmode; discriminate|]. congruence. }
  subst w1.
  destruct (handleNoStreamCache_not_live (S fuel) b remoteIP w r _
              ltac:(rewrite Hmode; discriminate) Hq) as (err & Hno).
  destruct (Do_effect (newRequest b (routeURL b remoteIP) false w) w)
    as (Htrace & Hstore & _).
  eexists. split; [|split].
  - unfold ServeHTTP. rewrite Hen, Hip, Htrust, Hmode.
    cbn [negb]. cbv zeta.
    replace (String.eqb configuration.NoneMode configuration.NoneMode)
      with true by reflexivity.
    replace (String.eqb configuration.NoneMode configuration.StreamMode
             || String.eqb configuration.NoneMode configuration.AloneMode)
      with false by reflexivity.
    cbn [negb]. rewrite Hno.
    rewrite handleRemediation_other by discriminate. reflexivity.
  - cbn [trace emit]. rewrite Htrace, <- !List.app_assoc. reflexivity.
  - cbn [cacheStore emit]. exact Hstore.
Qed.

Lemma none_mode_never_denies_witness :
  exists w',
    ServeHTTP peerResolver 1 (bouncerIn configuration.NoneMode captchaDown)
      visitor
      (worldWith [Reply StatusOK (inl (BodyDecisions
                    [decisionOf "ban" "10.0.0.7" "4h"]))])
    = Some w' /\
    List.last (trace w') EvNext = EvNext /\
    cacheStore w' = ∅.
Proof.
  edestruct (none_mode_never_denies peerResolver 0
               (bouncerIn configuration.NoneMode captchaDown) visitor
               (worldWith [Reply StatusOK (inl (BodyDecisions
                             [decisionOf "ban" "10.0.0.7" "4h"]))])
               "10.0.0.7")
    as (w' & Hserve & Htrace & Hstore); try reflexivity.
  exists w'. split; [exact Hserve|]. split; [|exact Hstore].
  rewrite Htrace. reflexivity.
Defined.

(** ** LiveLookup: empty answers, failures and the bound on what is cached *)

(** X5. In live mode, when the decision source answers the literal null or
    an empty array, none is cached for the address for the default decision
    timeout and the request is handed to the next handler; until that entry
    expires every request from the address is passed from the cache, with no
    further call. *)
Theorem live_empty_answer_is_cached
    GetRemoteIP fuel fuel' b req req' w remoteIP body rest t :
  enabled b = true ->
  crowdsecMode b = configuration.LiveMode ->
  GetRemoteIP req (serverPoolStrategy b) (customHeader b) = (remoteIP, None) ->
  GetRemoteIP req' (serverPoolStrategy b) (customHeader b) = (remoteIP, None) ->
  ip.Contains (ip.Checker_ (clientPoolStrategy b)) remoteIP = (false, None) ->
  snd (cacheGet remoteIP w) = Some cache.CacheMiss ->
  pending w = Reply StatusOK (inl body) :: rest ->
  body = BodyNull \/ body = BodyDecisions [] ->
  t < clock w + defaultDecisionTimeout b ->
  let w1 := cacheSet remoteIP cache.NoBannedValue (defaultDecisionTimeout b)
              (setPending rest
                 (emit (EvDo (newRequest b (routeURL b remoteIP) false w)) w)) in
  let w2 := emitAll [EvRemediation remoteIP; EvNext] w1 in
  ServeHTTP GetRemoteIP (S fuel) b req w = Some w2 /\
  ServeHTTP GetRemoteIP fuel' b req' (atTime t w2)
  = Some (emitAll [EvRemediation remoteIP; EvNext] (atTime t w2)).
Proof.
  intros Hen Hmode Hip Hip' Htrust Hmiss Hp Hbody Ht w1 w2. split.
  - rewrite (ServeHTTP_live_miss GetRemoteIP (S fuel) b req w remoteIP)
      by assumption.
    unfold handleNoStreamCache.
    rewrite (query_ok fuel b _ false w body rest Hp), Hmode.
    destruct Hbody as [-> | ->]; reflexivity.
  - rewrite (ServeHTTP_cache_hit GetRemoteIP fuel' b req' (atTime t w2)
               remoteIP cache.NoBannedValue); try assumption.
    + reflexivity.
    + rewrite Hmode. discriminate.
    + unfold cacheGet. subst w2 w1.
      cbn [cacheStore clock atTime emitAll fold_left emit cacheSet setCache
           setPending].
      now apply Get_Set_eq.
Qed.

Lemma live_empty_answer_is_cached_witness :
  let b := bouncerIn configuration.LiveMode captchaDown in
  let w := worldWith [Reply StatusOK (inl BodyNull)] in
  let w2 := emitAll [EvRemediation "10.0.0.7"; EvNext]
              (cacheSet "10.0.0.7" cache.NoBannedValue 3600
                 (setPending []
                    (emit (EvDo (newRequest b (routeURL b "10.0.0.7") false w))
                       w))) in
  ServeHTTP peerResolver 1 b visitor w = Some w2 /\
  ServeHTTP peerResolver 0 b visitor (atTime 4599 w2)
  = Some (emitAll [EvRemediation "10.0.0.7"; EvNext] (atTime 4599 w2)).
Proof.
  intros b w w2.
  apply (live_empty_answer_is_cached peerResolver 0 0 b visitor visitor w
           "10.0.0.7" BodyNull [] 4599);
    try reflexivity.
  now left.
Defined.

(** X6. In live mode a failed query (the decision source unreachable, a
    status other than 200, a body that cannot be read) does not deny the
    request: [handleNoStreamCache] returns none with the error, caches
    nothing, and [ServeHTTP] hands the request to the next handler. *)
Theorem live_query_failure_is_allowed
    GetRemoteIP fuel b req w remoteIP err w1 :
  enabled b = true ->
  crowdsecMode b = configuration.LiveMode ->
  GetRemoteIP req (serverPoolStrategy b) (customHeader b) = (remoteIP, None) ->
  ip.Contains (ip.Checker_ (clientPoolStrategy b)) remoteIP = (false, None) ->
  snd (cacheGet remoteIP w) = Some cache.CacheMiss ->
  crowdsecQuery fuel b (routeURL b remoteIP) false w = Some (inr err, w1) ->
  handleNoStreamCache fuel b remoteIP w
  = Some ((cache.NoBannedValue, Some err), w1) /\
  ServeHTTP GetRemoteIP fuel b req w
  = Some (emitAll [EvRemediation remoteIP; EvNext] w1) /\
  cacheStore w1 = cacheStore w.
Proof.
  intros Hen Hmode Hip Htrust Hmiss Hq.
  assert (Hno : handleNoStreamCache fuel b remoteIP w
                = Some ((cache.NoBannedValue, Some err), w1))
    by (unfold handleNoStreamCache; now rewrite Hq).
  split; [exact Hno|]. split.
  - rewrite (ServeHTTP_live_miss GetRemoteIP fuel b req w remoteIP)
      by assumption.
    now rewrite Hno.
  - now destruct (proj1 (query_frame fuel) _ _ _ _ _ _ Hq) as (-> & _).
Qed.

Lemma live_query_failure_is_allowed_witness :
  exists w1,
    ServeHTTP peerResolver 1 (bouncerIn configuration.LiveMode captchaDown)
      visitor
      (worldWith [Reply 500 (inl BodyInvalid)])
    = Some (emitAll [EvRemediation "10.0.0.7"; EvNext] w1) /\
    cacheStore w1 = ∅.
Proof.
  edestruct (live_query_failure_is_allowed peerResolver 1
               (bouncerIn configuration.LiveMode captchaDown) visitor
               (worldWith [Reply 500 (inl BodyInvalid)]) "10.0.0.7")
    as (_ & Hserve & Hstore);
    [reflexivity | reflexivity | reflexivity | reflexivity | reflexivity
    | reflexivity |].
  eexists. split; [exact Hserve | exact Hstore].
Defined.

(** X8. Once its query has returned, whatever the decision source answered,
    the on-demand query returns and has changed at most one cache entry, the
    one of the address asked about: only in live mode, only to none, banned
    or captcha, and never for longer than the default decision timeout. *)
Theorem on_demand_query_caches_within_bounds fuel b remoteIP w q w0 :
  crowdsecQuery fuel b (routeURL b remoteIP) false w = Some (q, w0) ->
  exists r w1,
    handleNoStreamCache fuel b remoteIP w = Some (r, w1) /\
    (forall key, key <> remoteIP ->
                 cacheStore w1 !! key = cacheStore w !! key) /\
    (cacheStore w1 !! remoteIP = cacheStore w !! remoteIP \/
     exists entry,
       cacheStore w1 !! remoteIP = Some entry /\
       crowdsecMode b = configuration.LiveMode /\
       (cache.value entry = cache.NoBannedValue \/
        cache.value entry = cache.BannedValue \/
        cache.value entry = cache.CaptchaValue) /\
       cache.expiry entry <= clock w + defaultDecisionTimeout b).
Proof.
  intros Hq. rename q into r, w0 into w1.
  destruct (proj1 (query_frame fuel) _ _ _ _ _ _ Hq)
    as (Hstore & Hclock & _ & _).
  assert (Hset : forall (r0 : string * error) val ttl,
    crowdsecMode b = configuration.LiveMode ->
    val = cache.NoBannedValue \/ val = cache.BannedValue \/
    val = cache.CaptchaValue ->
    ttl <= defaultDecisionTimeout b ->
    exists r' w0,
      Some (r0, cacheSet remoteIP val ttl w1) = Some (r', w0) /\
      (forall key, key <> remoteIP ->
                   cacheStore w0 !! key = cacheStore w !! key) /\
      (cacheStore w0 !! remoteIP = cacheStore w !! remoteIP \/
       exists entry,
         cacheStore w0 !! remoteIP = Some entry /\
         crowdsecMode b = configuration.LiveMode /\
         (cache.value entry = cache.NoBannedValue \/
          cache.value entry = cache.BannedValue \/
          cache.value entry = cache.CaptchaValue) /\
         cache.expiry entry <= clock w + defaultDecisionTimeout b)).
  { intros r0 val ttl Hlive Hval Httl. eexists _, _. split; [reflexivity|].
    cbn [cacheStore cacheSet setCache]. unfold cache.Set_. split.
    - intros key Hkey. rewrite lookup_insert_ne by congruence.
      now rewrite Hstore.
    - right. eexists. rewrite lookup_insert_eq. split; [reflexivity|].
      cbn [cache.value cache.expiry]. rewrite Hclock.
      repeat split; [assumption | assumption | lia]. }
  assert (Hany : forall (r0 : string * error),
    exists r' w0,
      Some (r0, w1) = Some (r', w0) /\
      (forall key, key <> remoteIP ->
                   cacheStore w0 !! key = cacheStore w !! key) /\
      (cacheStore w0 !! remoteIP = cacheStore w !! remoteIP \/
       exists entry,
         cacheStore w0 !! remoteIP = Some entry /\
         crowdsecMode b = configuration.LiveMode /\
         (cache.value entry = cache.NoBannedValue \/
          cache.value entry = cache.BannedValue \/
          cache.value entry = cache.CaptchaValue) /\
         cache.expiry entry <= clock w + defaultDecisionTimeout b)).
  { intros r0. exists r0, w1. rewrite Hstore. auto. }
  unfold handleNoStreamCache. rewrite Hq.
  destruct r as [body|err]; [|apply Hany].
  destruct (String.eqb_spec (crowdsecMode b) configuration.LiveMode)
    as [Hlive|Hlive].
  - destruct (isNull body); [apply Hset; auto; lia|].
    destruct (unmarshalDecisions body) as [decisions|]; [|apply Hany].
    destruct (length decisions =? 0)%nat; [apply Hset; auto; lia|].
    destruct (time.ParseDuration _) as [duration|]; [|apply Hany].
    cbv zeta. apply Hset; [assumption| |].
    + unfold valueOfType.
      destruct (String.eqb _ "ban"); [auto|].
      destruct (String.eqb _ "captcha"); auto.
    + destruct (Z.ltb_spec (defaultDecisionTimeout b) (time.Seconds duration));
        lia.
  - destruct (isNull body); [apply Hany|].
    destruct (unmarshalDecisions body) as [decisions|]; [|apply Hany].
    destruct (length decisions =? 0)%nat; [apply Hany|].
    destruct (time.ParseDuration _); apply Hany.
Qed.

Lemma on_demand_query_caches_within_bounds_witness :
  exists r w1,
    handleNoStreamCache 3 (bouncerIn configuration.LiveMode captchaDown)
      "10.0.0.7"
      (worldWith [Reply StatusOK (inl (BodyDecisions
                    [decisionOf "ban" "10.0.0.7" "4h"]))])
    = Some (r, w1) /\
    cacheStore w1 !! "192.0.2.1" = None.
Proof.
  edestruct (on_demand_query_caches_within_bounds 3
               (bouncerIn configuration.LiveMode captchaDown) "10.0.0.7"
               (worldWith [Reply StatusOK (inl (BodyDecisions
                             [decisionOf "ban" "10.0.0.7" "4h"]))]))
    as (r & w1 & Hq & Hother & _).
  - reflexivity.
  - exists r, w1. split; [exact Hq|].
    rewrite (Hother "192.0.2.1") by discriminate. reflexivity.
Defined.

(** ** The refresh cycle: what is written, what is kept *)

Lemma applyNew_skips ds w :
  fold_left applyNew ds w = fold_left applyNew (List.filter parsable ds) w.
Proof.
  revert w. induction ds as [|d ds IH]; intros w; [reflexivity|].
  cbn [fold_left List.filter]. unfold parsable at 1, applyNew at 2.
  destruct (time.ParseDuration (Duration d)) eqn:Hd.
  - cbn [fold_left]. unfold applyNew at 3. rewrite Hd. apply IH.
  - apply IH.
Qed.

(** X9. A new decision whose duration does not parse is skipped and does
    not fail the cycle: the cycle succeeds, marks the stream healthy, and
    leaves the cache as if the stream had held only the new decisions whose
    duration parses. *)
Theorem unparsable_new_decisions_are_skipped fuel b w body stream w2 :
  snd (cacheGet cacheTimeoutKey w) = Some cache.CacheMiss ->
  crowdsecQuery fuel b
    (streamRouteURL b (cacheSet cacheTimeoutKey cache.NoBannedValue
                         (wrap64 (updateInterval b - 1)) w))
    false
    (cacheSet cacheTimeoutKey cache.NoBannedValue
       (wrap64 (updateInterval b - 1)) w)
  = Some (inl body, w2) ->
  unmarshalStream body = Some stream ->
  handleStreamCache fuel b w
  = Some (None,
          setHealthy true
            (fold_left applyDeleted (Deleted stream)
               (fold_left applyNew (List.filter parsable (New stream)) w2))).
Proof.
  intros Hmiss Hquery Hstream.
  rewrite stale_cycle_unfold by assumption. cbv zeta.
  now rewrite Hquery, Hstream, applyNew_skips.
Qed.

Lemma unparsable_new_decisions_are_skipped_witness :
  exists w',
    handleStreamCache 1 (bouncerIn configuration.StreamMode captchaDown)
      (worldWith [Reply StatusOK (inl (BodyStream
         {| Deleted := [];
            New := [decisionOf "ban" "10.0.0.7" "forever";
                    decisionOf "ban" "10.0.0.8" "4h"] |}))])
    = Some (None, w') /\
    cacheStore w' !! "10.0.0.7" = None /\
    cacheStore w' !! "10.0.0.8"
    = Some {| cache.value := cache.BannedValue; cache.expiry := 15400 |}.
Proof.
  eexists. split.
  - eapply (unparsable_new_decisions_are_skipped 1
              (bouncerIn configuration.StreamMode captchaDown)
              (worldWith [Reply StatusOK (inl (BodyStream
                 {| Deleted := [];
                    New := [decisionOf "ban" "10.0.0.7" "forever";
                            decisionOf "ban" "10.0.0.8" "4h"] |}))]));
      reflexivity.
  - split; reflexivity.
Defined.

(** X10. A cycle changes the cache only under the sentinel key and under the
    subjects the stream names: every other entry is the same after the
    cycle as before, whether the cycle succeeded or failed. *)
Theorem cycle_touches_only_named_keys fuel b w r w2 key :
  snd (cacheGet cacheTimeoutKey w) = Some cache.CacheMiss ->
  crowdsecQuery fuel b
    (streamRouteURL b (cacheSet cacheTimeoutKey cache.NoBannedValue
                         (wrap64 (updateInterval b - 1)) w))
    false
    (cacheSet cacheTimeoutKey cache.NoBannedValue
       (wrap64 (updateInterval b - 1)) w)
  = Some (r, w2) ->
  key <> cacheTimeoutKey ->
  (forall body stream d,
      r = inl body -> unmarshalStream body = Some stream ->
      In d (New stream ++ Deleted stream) -> Value d <> key) ->
  exists e w',
    handleStreamCache fuel b w = Some (e, w') /\
    cacheStore w' !! key = cacheStore w !! key /\
    clock w' = clock w.
Proof.
  intros Hmiss Hquery Hkey Hnames.
  destruct (proj1 (query_frame fuel) _ _ _ _ _ _ Hquery)
    as (Hstore & Hclock & _ & _).
  assert (Hw2 : cacheStore w2 !! key = cacheStore w !! key).
  { rewrite Hstore. cbn [cacheStore cacheSet setCache]. unfold cache.Set_.
    apply lookup_insert_ne. congruence. }
  rewrite stale_cycle_unfold by assumption. cbv zeta. rewrite Hquery.
  destruct r as [body|err]; [|eauto].
  destruct (unmarshalStream body) as [stream|] eqn:Hstream; [|eauto].
  eexists _, _. split; [reflexivity|]. cbn [cacheStore clock setHealthy].
  split.
  - rewrite applyDeleted_other, applyNew_other; [exact Hw2| |];
      intros d Hd; apply (Hnames body stream d eq_refl Hstream);
      apply in_or_app; auto.
  - destruct (applyDeleted_frame (Deleted stream)
                (fold_left applyNew (New stream) w2)) as (-> & _).
    destruct (applyNew_frame (New stream) w2) as (-> & _). exact Hclock.
Qed.

Lemma cycle_touches_only_named_keys_witness :
  exists e w',
    handleStreamCache 1 (bouncerIn configuration.StreamMode captchaDown)
      (cacheSet "192.0.2.1" cache.BannedValue 600
         (worldWith [Reply StatusOK (inl (BodyStream
            {| Deleted := [decisionOf "ban" "10.0.0.9" "1h"];
               New := [decisionOf "ban" "10.0.0.7" "4h"] |}))]))
    = Some (e, w') /\
    cacheStore w' !! "192.0.2.1"
    = Some {| cache.value := cache.BannedValue; cache.expiry := 1600 |}.
Proof.
  edestruct (cycle_touches_only_named_keys 1
               (bouncerIn configuration.StreamMode captchaDown)
               (cacheSet "192.0.2.1" cache.BannedValue 600
                  (worldWith [Reply StatusOK (inl (BodyStream
                     {| Deleted := [decisionOf "ban" "10.0.0.9" "1h"];
                        New := [decisionOf "ban" "10.0.0.7" "4h"] |}))])))
    with (key := "192.0.2.1")
    as (e & w' & Hcycle & Hkept & _).
  - reflexivity.
  - reflexivity.
  - discriminate.
  - intros body stream d [= <-] [= <-] [<-|[<-|[]]]; discriminate.
  - exists e, w'. split; [exact Hcycle|]. rewrite Hkept. reflexivity.
Defined.

(** The health default, for use below: on a miss in stream or alone mode the
    answer is the next handler or 403 by the health of the stream. *)
Lemma ServeHTTP_health_default GetRemoteIP fuel b req w remoteIP :
  enabled b = true ->
  crowdsecMode b = configuration.StreamMode \/
  crowdsecMode b = configuration.AloneMode ->
  GetRemoteIP req (serverPoolStrategy b) (customHeader b) = (remoteIP, None) ->
  ip.Contains (ip.Checker_ (clientPoolStrategy b)) remoteIP = (false, None) ->
  snd (cacheGet remoteIP w) = Some cache.CacheMiss ->
  ServeHTTP GetRemoteIP fuel b req w =
  Some (emit (if isCrowdsecStreamHealthy w then EvNext
              else EvWriteHeader StatusForbidden) w).
Proof.
  intros Hen Hmode Hip Htrust Hmiss.
  unfold ServeHTTP. rewrite Hen, Hip, Htrust.
  destruct (cacheGet remoteIP w) as [v e]. simpl in Hmiss. subst e.
  destruct Hmode as [-> | ->]; now destruct (isCrowdsecStreamHealthy w).
Qed.

(** X11. A new decision of type ban whose duration parses bans its subject
    for that duration, in the seconds [int64(duration.Seconds())] makes of
    it: from the end of the cycle until the entry expires every request from
    the subject is answered 403, healthy stream or not; from the second of
    expiry on the entry counts as a miss and the request follows the health
    of the stream again.  (The decision is the last one of the cycle for its
    subject.) *)
Theorem streamed_ban_denies_until_expiry
    GetRemoteIP fuel fuel' b w body stream w2 before d after dur req t t' h :
  snd (cacheGet cacheTimeoutKey w) = Some cache.CacheMiss ->
  crowdsecQuery fuel b
    (streamRouteURL b (cacheSet cacheTimeoutKey cache.NoBannedValue
                         (wrap64 (updateInterval b - 1)) w))
    false
    (cacheSet cacheTimeoutKey cache.NoBannedValue
       (wrap64 (updateInterval b - 1)) w)
  = Some (inl body, w2) ->
  unmarshalStream body = Some stream ->
  New stream = (before ++ d :: after)%list ->
  Type_ d = "ban" ->
  time.ParseDuration (Duration d) = Some dur ->
  (forall d', In d' after -> Value d' <> Value d) ->
  (forall d', In d' (Deleted stream) -> Value d' <> Value d) ->
  enabled b = true ->
  crowdsecMode b = configuration.StreamMode \/
  crowdsecMode b = configuration.AloneMode ->
  GetRemoteIP req (serverPoolStrategy b) (customHeader b) = (Value d, None) ->
  ip.Contains (ip.Checker_ (clientPoolStrategy b)) (Value d) = (false, None) ->
  t < clock w + time.Seconds dur ->
  clock w + time.Seconds dur <= t' ->
  exists w',
    handleStreamCache fuel b w = Some (None, w') /\
    ServeHTTP GetRemoteIP fuel' b req (setHealthy h (atTime t w'))
    = Some (emitAll [EvRemediation (Value d); EvWriteHeader StatusForbidden]
              (setHealthy h (atTime t w'))) /\
    ServeHTTP GetRemoteIP fuel' b req (setHealthy h (atTime t' w'))
    = Some (emit (if h then EvNext else EvWriteHeader StatusForbidden)
              (setHealthy h (atTime t' w'))).
Proof.
  intros Hmiss Hquery Hstream Hnew Hban Hdur Hafter Hdeleted
         Hen Hmode Hip Htrust Ht Ht'.
  pose proof (proj1 (query_frame fuel) _ _ _ _ _ _ Hquery)
    as (_ & Hclock & _ & _).
  simpl in Hclock.
  assert (Hentry :
    cacheStore (fold_left applyDeleted (Deleted stream)
                  (fold_left applyNew (New stream) w2)) !! Value d
    = Some {| cache.value := cache.BannedValue;
              cache.expiry := clock w + time.Seconds dur |}).
  { rewrite applyDeleted_other by assumption.
    rewrite Hnew, (applyNew_last before d after w2 dur) by assumption.
    now rewrite Hban, Hclock. }
  eexists. split; [|split].
  - rewrite stale_cycle_unfold by assumption. cbv zeta.
    rewrite Hquery, Hstream. reflexivity.
  - rewrite (ServeHTTP_cache_hit GetRemoteIP fuel' b req _ (Value d)
               cache.BannedValue); try assumption.
    + reflexivity.
    + destruct Hmode as [-> | ->]; discriminate.
    + unfold cacheGet, cache.Get. cbn [cacheStore clock setHealthy atTime].
      rewrite Hentry. cbn [cache.expiry cache.value].
      destruct (Z.ltb_spec t (clock w + time.Seconds dur));
        [reflexivity | lia].
  - rewrite (ServeHTTP_health_default GetRemoteIP fuel' b req _ (Value d));
      try assumption; [reflexivity|].
    unfold cacheGet, cache.Get. cbn [cacheStore clock setHealthy atTime].
    rewrite Hentry. cbn [cache.expiry cache.value].
    destruct (Z.ltb_spec t' (clock w + time.Seconds dur));
      [lia | reflexivity].
Qed.

Lemma streamed_ban_denies_until_expiry_witness :
  exists w',
    handleStreamCache 1 (bouncerIn configuration.StreamMode captchaDown)
      (worldWith [Reply StatusOK (inl (BodyStream
         {| Deleted := [];
            New := [decisionOf "ban" "10.0.0.7" "4661h0m0.999999999s"] |}))])
    = Some (None, w') /\
    ServeHTTP peerResolver 0 (bouncerIn configuration.StreamMode captchaDown)
      visitor (setHealthy true (atTime 16780600 w'))
    = Some (emitAll [EvRemediation "10.0.0.7"; EvWriteHeader StatusForbidden]
              (setHealthy true (atTime 16780600 w'))) /\
    ServeHTTP peerResolver 0 (bouncerIn configuration.StreamMode captchaDown)
      visitor (setHealthy true (atTime 16780601 w'))
    = Some (emit EvNext (setHealthy true (atTime 16780601 w'))).
Proof.
  edestruct (streamed_ban_denies_until_expiry peerResolver 1 0
               (bouncerIn configuration.StreamMode captchaDown)
               (worldWith [Reply StatusOK (inl (BodyStream
                  {| Deleted := [];
                     New := [decisionOf "ban" "10.0.0.7"
                               "4661h0m0.999999999s"] |}))]))
    with (before := @nil Decision)
         (d := decisionOf "ban" "10.0.0.7" "4661h0m0.999999999s")
         (after := @nil Decision) (req := visitor)
         (t := 16780600) (t' := 16780601) (h := true)
    as (w' & Hcycle & Hbefore & Hafter).
  - reflexivity.
  - reflexivity.
  - reflexivity.
  - reflexivity.
  - reflexivity.
  - reflexivity.
  - intros d' [].
  - intros d' [].
  - reflexivity.
  - left. reflexivity.
  - reflexivity.
  - reflexivity.
  - vm_compute. reflexivity.
  - vm_compute. discriminate.
  - exists w'. split; [exact Hcycle|]. split; [exact Hbefore | exact Hafter].
Defined.

(** X12. A subject named in the deleted list is let through again: after a
    cycle that succeeded, a request from it misses the cache and, the cycle
    having marked the stream healthy, is handed to the next handler, whatever
    the cache held for it before and whatever the health was before. *)
Theorem deleted_subject_is_allowed_again
    GetRemoteIP fuel fuel' b w body stream w2 d req t :
  snd (cacheGet cacheTimeoutKey w) = Some cache.CacheMiss ->
  crowdsecQuery fuel b
    (streamRouteURL b (cacheSet cacheTimeoutKey cache.NoBannedValue
                         (wrap64 (updateInterval b - 1)) w))
    false
    (cacheSet cacheTimeoutKey cache.NoBannedValue
       (wrap64 (updateInterval b - 1)) w)
  = Some (inl body, w2) ->
  unmarshalStream body = Some stream ->
  In d (Deleted stream) ->
  enabled b = true ->
  crowdsecMode b = configuration.StreamMode \/
  crowdsecMode b = configuration.AloneMode ->
  GetRemoteIP req (serverPoolStrategy b) (customHeader b) = (Value d, None) ->
  ip.Contains (ip.Checker_ (clientPoolStrategy b)) (Value d) = (false, None) ->
  exists w',
    handleStreamCache fuel b w = Some (None, w') /\
    ServeHTTP GetRemoteIP fuel' b req (atTime t w')
    = Some (emit EvNext (atTime t w')).
Proof.
  intros Hmiss Hquery Hstream Hin Hen Hmode Hip Htrust.
  eexists. split.
  - rewrite stale_cycle_unfold by assumption. cbv zeta.
    rewrite Hquery, Hstream. reflexivity.
  - rewrite (ServeHTTP_health_default GetRemoteIP fuel' b req _ (Value d));
      try assumption; [reflexivity|].
    unfold cacheGet. rewrite Get_absent; [reflexivity|].
    cbn [cacheStore atTime setHealthy]. now apply applyDeleted_removes.
Qed.

Lemma deleted_subject_is_allowed_again_witness :
  exists w',
    handleStreamCache 1 (bouncerIn configuration.StreamMode captchaDown)
      (setHealthy false
         (cacheSet "10.0.0.7" cache.BannedValue 14400
            (worldWith [Reply StatusOK (inl (BodyStream
               {| Deleted := [decisionOf "ban" "10.0.0.7" "3h"];
                  New := [] |}))])))
    = Some (None, w') /\
    ServeHTTP peerResolver 0 (bouncerIn configuration.StreamMode captchaDown)
      visitor (atTime 1001 w')
    = Some (emit EvNext (atTime 1001 w')).
Proof.
  edestruct (deleted_subject_is_allowed_again peerResolver 1 0
               (bouncerIn configuration.StreamMode captchaDown)
               (setHealthy false
                  (cacheSet "10.0.0.7" cache.BannedValue 14400
                     (worldWith [Reply StatusOK (inl (BodyStream
                        {| Deleted := [decisionOf "ban" "10.0.0.7" "3h"];
                           New := [] |}))]))))
    with (d := decisionOf "ban" "10.0.0.7" "3h") (req := visitor) (t := 1001)
    as (w' & Hcycle & Hserve).
  - reflexivity.
  - reflexivity.
  - reflexivity.
  - now left.
  - reflexivity.
  - left. reflexivity.
  - reflexivity.
  - reflexivity.
  - exists w'. split; [exact Hcycle | exact Hserve].
Defined.

(** ** Ticks and the health of the stream *)

(** X13. Any tick that finds the sentinel marks the stream healthy without
    contacting the decision source.  So when a cycle has failed (the tick
    marked the stream unhealthy and the sentinel stays written), a tick
    inside the sentinel's window marks the stream healthy again although
    nothing was fetched. *)
Theorem tick_inside_window_restores_health fuel fuel' b w err w2 t :
  snd (cacheGet cacheTimeoutKey w) = Some cache.CacheMiss ->
  crowdsecQuery fuel b
    (streamRouteURL b (cacheSet cacheTimeoutKey cache.NoBannedValue
                         (wrap64 (updateInterval b - 1)) w))
    false
    (cacheSet cacheTimeoutKey cache.NoBannedValue
       (wrap64 (updateInterval b - 1)) w)
  = Some (inr err, w2) ->
  t < clock w + wrap64 (updateInterval b - 1) ->
  handleStreamTicker fuel b w = Some (setHealthy false w2) /\
  handleStreamTicker fuel' b (atTime t (setHealthy false w2))
  = Some (setHealthy true (atTime t (setHealthy false w2))).
Proof.
  intros Hmiss Hquery Ht.
  destruct (proj1 (query_frame fuel) _ _ _ _ _ _ Hquery)
    as (Hstore & _ & _ & _).
  split.
  - unfold handleStreamTicker. rewrite stale_cycle_unfold by assumption.
    cbv zeta. now rewrite Hquery.
  - unfold handleStreamTicker. rewrite fresh_cycle_is_noop; [reflexivity|].
    unfold cacheGet. cbn [cacheStore clock atTime setHealthy].
    rewrite Hstore. cbn [cacheStore cacheSet setCache].
    now rewrite Get_Set_eq.
Qed.

Lemma tick_inside_window_restores_health_witness :
  exists w1,
    handleStreamTicker 1 (bouncerIn configuration.StreamMode captchaDown)
      (worldWith [DoError "no route to host"]) = Some w1 /\
    isCrowdsecStreamHealthy w1 = false /\
    handleStreamTicker 0 (bouncerIn configuration.StreamMode captchaDown)
      (atTime 1030 w1) = Some (setHealthy true (atTime 1030 w1)).
Proof.
  edestruct (tick_inside_window_restores_health 1 0
               (bouncerIn configuration.StreamMode captchaDown)
               (worldWith [DoError "no route to host"]))
    with (t := 1030)
    as (Hfirst & Hsecond).
  - reflexivity.
  - reflexivity.
  - vm_compute. reflexivity.
  - eexists. split; [exact Hfirst|]. split; [reflexivity | exact Hsecond].
Defined.




(** ** Queries and logins: failures and the key *)

(** X15. A response whose status is not 200 is an error of the query, named
    by its status, after that one call; unless the bouncer is in alone mode
    and the status is 401, nothing is retried and no login is made: the key
    and the health of the stream stay as they are. *)
Theorem status_other_than_200_is_an_error
    fuel b stringURL isPost w code body rest :
  pending w = Reply code body :: rest ->
  code <> StatusOK ->
  code <> StatusUnauthorized \/ crowdsecMode b <> configuration.AloneMode ->
  crowdsecQuery (S fuel) b stringURL isPost w
  = Some (inr ("crowdsecQuery url:" +:+ stringURL +:+ ", statusCode:" +:+
               pretty code),
          setPending rest (emit (EvDo (newRequest b stringURL isPost w)) w)).
Proof.
  intros Hp Hcode Hrenew. cbn [crowdsecQuery]. unfold Do. rewrite Hp.
  assert (Hno : (code =? StatusUnauthorized)
                && String.eqb (crowdsecMode b) configuration.AloneMode
                = false).
  { destruct Hrenew as [H|H].
    - apply Z.eqb_neq in H. now rewrite H.
    - apply String.eqb_neq in H. rewrite H. apply andb_false_r. }
  rewrite Hno. apply Z.eqb_neq in Hcode. now rewrite Hcode.
Qed.

Lemma status_other_than_200_is_an_error_witness :
  let b := bouncerIn configuration.LiveMode captchaDown in
  let w := worldWith [Reply StatusUnauthorized (inl BodyInvalid)] in
  crowdsecQuery 1 b (routeURL b "10.0.0.7") false w
  = Some (inr ("crowdsecQuery url:" +:+ routeURL b "10.0.0.7" +:+
               ", statusCode:" +:+ "401"),
          setPending []
            (emit (EvDo (newRequest b (routeURL b "10.0.0.7") false w)) w)).
Proof.
  intros b w.
  apply (status_other_than_200_is_an_error 0 b (routeURL b "10.0.0.7") false
           w StatusUnauthorized (inl BodyInvalid) []).
  - reflexivity.
  - discriminate.
  - right. discriminate.
Defined.

(** X16. A login answered 200 with a login object replaces the bouncer's key
    exactly when the object carries code 200 and a non-empty token;
    otherwise [getToken] returns an error and keeps the old key.  Either
    way it has sent one POST of the credentials to the login route, with the
    old key in the header, and left the health of the stream alone. *)
Theorem login_replaces_key_only_when_granted fuel b w login rest :
  pending w = Reply StatusOK (inl (BodyLogin login)) :: rest ->
  exists e w',
    getToken (S (S fuel)) b w = Some (e, w') /\
    (e = None <-> Code login = 200 /\ Token login <> EmptyString) /\
    crowdsecKey w'
    = match e with None => Token login | Some _ => crowdsecKey w end /\
    trace w'
    = (trace w ++ [EvDo {| method := MethodPost; url := loginURL b;
                           headerName := crowdsecHeader b;
                           headerValue := crowdsecKey w;
                           data := loginData b |}])%list /\
    pending w' = rest /\
    isCrowdsecStreamHealthy w' = isCrowdsecStreamHealthy w.
Proof.
  intros Hp. cbn [getToken].
  rewrite (query_ok fuel b (loginURL b) true w _ rest Hp).
  cbn [unmarshalLogin].
  destruct (Z.eqb_spec (Code login) 200) as [Hcode|Hcode];
    destruct (Z.ltb_spec 0 (Z.of_nat (String.length (Token login))))
      as [Hlen|Hlen];
    cbn [andb]; eexists _, _; (split; [reflexivity|]);
    (split; [|repeat split]);
    try (split; [intros _ | intros _; reflexivity]);
    try (split; [discriminate | intros [H1 H2]; exfalso]);
    try (split; [assumption|]);
    try (destruct (Token login); simpl in *; [lia | discriminate]);
    try (destruct (Token login); simpl in *; [congruence | lia]);
    try contradiction.
Qed.

Lemma login_replaces_key_only_when_granted_witness :
  exists e w',
    getToken 2 (bouncerIn configuration.AloneMode captchaDown)
      (worldWith [Reply StatusOK
                    (inl (BodyLogin {| Code := 403; Token := "ignored";
                                       Expire := EmptyString |}))])
    = Some (e, w') /\
    e <> None /\ crowdsecKey w' = "key".
Proof.
  destruct (login_replaces_key_only_when_granted 0
              (bouncerIn configuration.AloneMode captchaDown)
              (worldWith [Reply StatusOK
                            (inl (BodyLogin {| Code := 403; Token := "ignored";
                                               Expire := EmptyString |}))])
              {| Code := 403; Token := "ignored"; Expire := EmptyString |} []
              eq_refl)
    as (e & w' & Hlogin & Hiff & Hkey & _).
  exists e, w'. split; [exact Hlogin|].
  assert (He : e <> None).
  { intros He. apply Hiff in He. destruct He as [He _]. discriminate. }
  split; [exact He|].
  rewrite Hkey. destruct e; [reflexivity | contradiction].
Defined.

Lemma not_granted login :
  ~ (Code login = 200 /\ Token login <> EmptyString) ->
  (Code login =? 200) && (0 <? Z.of_nat (String.length (Token login))) = false.
Proof.
  intros Hno.
  destruct (Z.eqb_spec (Code login) 200) as [Hcode|Hcode]; [|reflexivity].
  destruct (Z.ltb_spec 0 (Z.of_nat (String.length (Token login))))
    as [Hlen|Hlen]; [|reflexivity].
  exfalso. apply Hno. split; [exact Hcode|].
  intros Htoken. rewrite Htoken in Hlen. simpl in Hlen. lia.
Qed.

(** X17. In alone mode, a cycle whose stream call is answered 401 and whose
    login is then refused (a code other than 200, or an empty token) fails:
    the stream call is not repeated, the key is kept, and the tick marks the
    stream unhealthy; the sentinel written at the start of the cycle
    stays. *)
Theorem refused_login_fails_the_cycle fuel b w login rest :
  crowdsecMode b = configuration.AloneMode ->
  snd (cacheGet cacheTimeoutKey w) = Some cache.CacheMiss ->
  pending w
  = unauthorized :: Reply StatusOK (inl (BodyLogin login)) :: rest ->
  ~ (Code login = 200 /\ Token login <> EmptyString) ->
  exists w',
    handleStreamTicker (S (S (S fuel))) b w = Some w' /\
    isCrowdsecStreamHealthy w' = false /\
    crowdsecKey w' = crowdsecKey w /\
    pending w' = rest /\
    trace w'
    = (trace w ++
       [EvDo (newRequest b (streamRouteURL b w) false w);
        EvDo (newRequest b (loginURL b) true w)])%list /\
    cacheStore w'
    = cache.Set_ (cacheStore w) (clock w) cacheTimeoutKey cache.NoBannedValue
        (wrap64 (updateInterval b - 1)).
Proof.
  intros Hmode Hmiss Hp Hrefused.
  apply not_granted in Hrefused.
  unfold handleStreamTicker. rewrite stale_cycle_unfold by assumption.
  cbv zeta. cbn [crowdsecQuery getToken]. unfold Do at 1.
  cbn [pending cacheSet setCache]. rewrite Hp, Hmode.
  cbn [unauthorized StatusUnauthorized Z.eqb Pos.eqb andb].
  replace (String.eqb configuration.AloneMode configuration.AloneMode)
    with true by reflexivity.
  cbn [andb]. unfold Do at 1. cbn [pending setPending emit].
  cbn [StatusOK StatusUnauthorized Z.eqb Pos.eqb andb negb unmarshalLogin].
  rewrite Hrefused.
  eexists. split; [reflexivity|].
  cbn [isCrowdsecStreamHealthy crowdsecKey pending trace cacheStore
       setHealthy setPending emit setCache].
  rewrite <- List.app_assoc. repeat split.
Qed.

Lemma refused_login_fails_the_cycle_witness :
  exists w',
    handleStreamTicker 3 (bouncerIn configuration.AloneMode captchaDown)
      (worldWith [unauthorized;
                  Reply StatusOK
                    (inl (BodyLogin {| Code := 200; Token := EmptyString;
                                       Expire := EmptyString |}))])
    = Some w' /\
    isCrowdsecStreamHealthy w' = false /\ crowdsecKey w' = "key".
Proof.
  destruct (refused_login_fails_the_cycle 0
              (bouncerIn configuration.AloneMode captchaDown)
              (worldWith [unauthorized;
                          Reply StatusOK
                            (inl (BodyLogin {| Code := 200;
                                               Token := EmptyString;
                                               Expire := EmptyString |}))])
              {| Code := 200; Token := EmptyString; Expire := EmptyString |}
              [])
    as (w' & Htick & Hhealth & Hkey & _).
  - reflexivity.
  - reflexivity.
  - reflexivity.
  - intros [_ Htoken]. now apply Htoken.
  - exists w'. split; [exact Htick|]. split; [exact Hhealth | exact Hkey].
Defined.

(** X18. After a renewed login the original call is sent again as a GET,
    even when it was a POST, and with the new token in the bouncer's header:
    a call answered 401, a granted login and 200 leave three calls in the
    trace, the original request, the POST of the credentials under the old
    key and the GET under the new one. *)
Theorem retry_is_a_get_with_the_new_token
    fuel b stringURL isPost w token body rest :
  crowdsecMode b = configuration.AloneMode ->
  token <> EmptyString ->
  pending w
  = unauthorized :: loginReply token :: Reply StatusOK (inl body) :: rest ->
  exists w',
    crowdsecQuery (S (S (S fuel))) b stringURL isPost w
    = Some (inl body, w') /\
    crowdsecKey w' = token /\
    pending w' = rest /\
    trace w'
    = (trace w ++
       [EvDo (newRequest b stringURL isPost w);
        EvDo {| method := MethodPost; url := loginURL b;
                headerName := crowdsecHeader b;
                headerValue := crowdsecKey w; data := loginData b |};
        EvDo {| method := MethodGet; url := stringURL;
                headerName := crowdsecHeader b;
                headerValue := token; data := EmptyString |}])%list.
Proof.
  intros Hmode Htoken Hp.
  destruct (renewal_round fuel b stringURL isPost w token _ Hmode Htoken Hp)
    as (w2 & -> & Hp2 & Hkey2 & Htrace2).
  rewrite (query_ok (S fuel) b stringURL false w2 body rest Hp2).
  eexists. split; [reflexivity|].
  cbn [crowdsecKey pending trace setPending emit].
  rewrite Htrace2, Hkey2, <- List.app_assoc.
  unfold newRequest at 3. rewrite Hkey2. repeat split.
Qed.

Lemma retry_is_a_get_with_the_new_token_witness :
  let b := bouncerIn configuration.AloneMode captchaDown in
  exists w',
    crowdsecQuery 3 b (loginURL b) true
      (worldWith [unauthorized; loginReply "token-1";
                  Reply StatusOK (inl BodyNull)])
    = Some (inl BodyNull, w') /\
    List.nth 2 (trace w') EvNext
    = EvDo {| method := MethodGet; url := loginURL b;
              headerName := "Authorization"; headerValue := "token-1";
              data := EmptyString |}.
Proof.
  intros b.
  destruct (retry_is_a_get_with_the_new_token 0 b (loginURL b) true
              (worldWith [unauthorized; loginReply "token-1";
                          Reply StatusOK (inl BodyNull)])
              "token-1" BodyNull [])
    as (w' & Hq & _ & _ & Htrace).
  - reflexivity.
  - discriminate.
  - reflexivity.
  - exists w'. split; [exact Hq|]. rewrite Htrace. reflexivity.
Defined.

(** ** Construction *)

(** X19. Outside alone mode, when the LAPI key cannot be read and the TLS
    configuration has no client certificate, [New] returns no handler and
    no error either: the error it returns is the nil left by loading the TLS
    configuration, not the error of reading the key.  Nothing else has
    happened: the configuration and the process are as before. *)
Theorem missing_key_returns_neither_handler_nor_error
    env fuel config p apiKey err :
  ValidateParams env config = None ->
  CrowdsecMode config <> configuration.AloneMode ->
  GetTLSConfigCrowdsec env config = (0%nat, None) ->
  GetVariable env config "CrowdsecLapiKey" = (apiKey, Some err) ->
  plugin.New env fuel config p = Some ((None, None), config, p).
Proof.
  intros Hvalid Hmode Htls Hkey. unfold plugin.New.
  apply String.eqb_neq in Hmode.
  now rewrite Hvalid, Hmode, Htls, Hkey.
Qed.

Lemma missing_key_returns_neither_handler_nor_error_witness :
  plugin.New keylessEnv 0 (configIn configuration.StreamMode)
    (freshProcess [])
  = Some ((None, None), configIn configuration.StreamMode, freshProcess []).
Proof.
  apply (missing_key_returns_neither_handler_nor_error keylessEnv 0
           (configIn configuration.StreamMode) (freshProcess [])
           EmptyString "CrowdsecLapiKey not found");
    try reflexivity.
  discriminate.
Defined.

(** X20. In alone mode the first bouncer of the process logs in before its
    first cycle, and a refused login is fatal: [New] returns the error of
    the login and no handler, after that one call; the ticker is not
    started, no cycle has run, and the startup flag and the cache are as
    before. *)
Theorem startup_login_failure_is_fatal env fuel config p login rest :
  ValidateParams env config = None ->
  CrowdsecMode config = configuration.AloneMode ->
  ticker p = false ->
  pending (world p) = Reply StatusOK (inl (BodyLogin login)) :: rest ->
  ~ (Code login = 200 /\ Token login <> EmptyString) ->
  exists config' w1,
    plugin.New env (S (S fuel)) config p
    = Some ((None, Some ("getToken statusCode:" +:+ pretty (Code login))),
            config', {| world := w1; ticker := false |}) /\
    calls (trace w1) = S (calls (trace (world p))) /\
    pending w1 = rest /\
    isStartup w1 = isStartup (world p) /\
    cacheStore w1 = cacheStore (world p).
Proof.
  intros Hvalid Hmode Hticker Hp Hrefused.
  apply not_granted in Hrefused.
  unfold plugin.New. rewrite Hvalid, Hmode, Hticker.
  replace (String.eqb configuration.AloneMode configuration.AloneMode)
    with true by reflexivity.
  cbv zeta.
  cbn [CrowdsecMode setRedisCachePassword setUpdateInterval setLapiScheme
       setLapiHost setCapiPassword setCapiMachineID].
  rewrite Hmode.
  replace (String.eqb configuration.AloneMode configuration.AloneMode)
    with true by reflexivity.
  replace (String.eqb configuration.AloneMode configuration.StreamMode)
    with false by reflexivity.
  cbn [orb andb negb getToken].
  erewrite query_ok by (cbn [pending setKey]; exact Hp).
  cbn [unmarshalLogin]. rewrite Hrefused.
  eexists _, _. split; [reflexivity|].
  cbn [trace pending isStartup cacheStore setPending emit setKey].
  split; [apply calls_snoc|]. repeat split.
Qed.

Lemma startup_login_failure_is_fatal_witness :
  exists config' w1,
    plugin.New plainEnv 2 (configIn configuration.AloneMode)
      (freshProcess [Reply StatusOK
                       (inl (BodyLogin {| Code := 403; Token := EmptyString;
                                          Expire := EmptyString |}))])
    = Some ((None, Some "getToken statusCode:403"), config',
            {| world := w1; ticker := false |}) /\
    isStartup w1 = true.
Proof.
  destruct (startup_login_failure_is_fatal plainEnv 0
              (configIn configuration.AloneMode)
              (freshProcess [Reply StatusOK
                               (inl (BodyLogin {| Code := 403;
                                                  Token := EmptyString;
                                                  Expire := EmptyString |}))])
              {| Code := 403; Token := EmptyString; Expire := EmptyString |}
              [])
    as (config' & w1 & Hnew & _ & _ & Hstartup & _).
  - reflexivity.
  - reflexivity.
  - reflexivity.
  - reflexivity.
  - intros [Hcode _]. discriminate.
  - exists config', w1. split; [exact Hnew | exact Hstartup].
Defined.

(** X21. [New] contacts the decision source only when it starts the ticker.
    With the ticker already started by an earlier bouncer, or in live or
    none mode, it returns the handler without a login, a cycle or any other
    effect: the cache, the health of the stream, the startup flag and the
    ticker are as before. *)
Theorem later_bouncers_start_no_sync env fuel config p :
  ValidateParams env config = None ->
  ticker p = true \/
  (CrowdsecMode config <> configuration.StreamMode /\
   CrowdsecMode config <> configuration.AloneMode) ->
  CrowdsecMode config = configuration.AloneMode \/
  (exists certificates apiKey errAPIKey,
      GetTLSConfigCrowdsec env config = (certificates, None) /\
      GetVariable env config "CrowdsecLapiKey" = (apiKey, errAPIKey) /\
      (errAPIKey = None \/ certificates <> 0%nat)) ->
  exists b config',
    plugin.New env fuel config p
    = Some ((Some b, None), config',
            {| world := setKey (CrowdsecLapiKey config') (world p);
               ticker := ticker p |}) /\
    crowdsecMode b = CrowdsecMode config.
Proof.
  intros Hvalid Hidle Hsetup. unfold plugin.New. rewrite Hvalid.
  assert (Hgate : forall mode,
    mode = CrowdsecMode config ->
    (String.eqb mode configuration.StreamMode
     || String.eqb mode configuration.AloneMode) && negb (ticker p) = false).
  { intros mode ->. destruct Hidle as [-> | [Hs Ha]].
    - apply andb_false_r.
    - apply String.eqb_neq in Hs, Ha. now rewrite Hs, Ha. }
  destruct (String.eqb_spec (CrowdsecMode config) configuration.AloneMode)
    as [Halone|Halone].
  - cbv zeta. rewrite Hgate by reflexivity.
    match goal with
    | |- exists b config', Some ((Some ?b0, None), ?c0, _) = _ /\ _ =>
        exists b0, c0
    end.
    split; reflexivity.
  - destruct Hsetup as [Hsetup | (n & apiKey & errAPIKey & -> & -> & Hok)];
      [contradiction|].
    assert (Hno : isError errAPIKey && (n =? 0)%nat = false).
    { destruct Hok as [-> | Hn]; [reflexivity|].
      apply Nat.eqb_neq in Hn. rewrite Hn. apply andb_false_r. }
    rewrite Hno. cbv zeta. rewrite Hgate by reflexivity.
    match goal with
    | |- exists b config', Some ((Some ?b0, None), ?c0, _) = _ /\ _ =>
        exists b0, c0
    end.
    split; reflexivity.
Qed.

Lemma later_bouncers_start_no_sync_witness :
  exists b config',
    plugin.New plainEnv 0 (configIn configuration.StreamMode)
      {| world := setHealthy false (worldWith []); ticker := true |}
    = Some ((Some b, None), config',
            {| world := setKey (CrowdsecLapiKey config')
                          (setHealthy false (worldWith []));
               ticker := true |}).
Proof.
  destruct (later_bouncers_start_no_sync plainEnv 0
              (configIn configuration.StreamMode)
              {| world := setHealthy false (worldWith []); ticker := true |})
    as (b & config' & Hnew & _).
  - reflexivity.
  - left. reflexivity.
  - right. exists 0%nat, "key", None. repeat split. now left.
  - exists b, config'. exact Hnew.
Defined.



(** X23. In alone mode the configured LAPI scheme and host and the
    configured update interval are not used: whatever handler [New]
    returns talks to https://api.crowdsec.net, on the CAPI stream route with
    the Authorization header, and refreshes every 7200 seconds. *)
Theorem alone_mode_overrides_the_source env fuel config p b e config' p' :
  plugin.New env fuel config p = Some ((Some b, e), config', p') ->
  CrowdsecMode config = configuration.AloneMode ->
  crowdsecScheme b = "https" /\
  crowdsecHost b = "api.crowdsec.net" /\
  updateInterval b = 7200 /\
  crowdsecStreamRoute b = crowdsecCapiStreamRoute /\
  crowdsecHeader b = crowdsecCapiHeader /\
  UpdateIntervalSeconds config' = 7200.
Proof.
  intros Hnew Hmode. unfold plugin.New in Hnew.
  destruct (ValidateParams env config); [discriminate|].
  rewrite Hmode in Hnew.
  replace (String.eqb configuration.AloneMode configuration.AloneMode)
    with true in Hnew by reflexivity.
  cbv zeta in Hnew.
  destruct ((String.eqb _ configuration.StreamMode
             || String.eqb _ configuration.AloneMode) && negb (ticker p)).
  - destruct (String.eqb _ configuration.AloneMode).
    + destruct (getToken fuel _ _) as [[[err|] w1]|]; try discriminate.
      destruct (handleStreamTicker fuel _ w1); [|discriminate].
      injection Hnew as <- _ <- _. repeat split.
    + destruct (handleStreamTicker fuel _ _); [|discriminate].
      injection Hnew as <- _ <- _. repeat split.
  - injection Hnew as <- _ <- _. repeat split.
Qed.

Lemma alone_mode_overrides_the_source_witness :
  match plugin.New plainEnv 0 (configIn configuration.AloneMode)
          {| world := worldWith []; ticker := true |} with
  | Some ((Some b, _), _, _) =>
      updateInterval b = 7200 /\ crowdsecHost b = "api.crowdsec.net"
  | _ => False
  end.
Proof.
  destruct (plugin.New plainEnv 0 (configIn configuration.AloneMode)
              {| world := worldWith []; ticker := true |})
    as [[[[[b|] e] config'] p']|] eqn:Hnew;
    try (vm_compute in Hnew; discriminate).
  destruct (alone_mode_overrides_the_source _ _ _ _ _ _ _ _ Hnew eq_refl)
    as (_ & Hhost & Hinterval & _).
  split; [exact Hinterval | exact Hhost].
Defined.
